(** * Nutrition calculator: the calculation engine and its specification

    A shallow embedding of the calculation engine of the nutrition
    calculator (the full [calculateAll] of the engine file, the placeholder
    of [src/lib/calcs.ts], the form schema of [src/lib/schema.ts], the
    formatters of [src/lib/format.ts], what the results panel computes and
    the part of the page component that calls the engine), followed by the
    properties its specification states about it and by further properties
    of the code.

    JavaScript numbers are IEEE 754 binary64 values, so they are modelled by
    Rocq's primitive floats: every arithmetic operation below rounds exactly
    as the program's does.  An optional field ([x?: number]) is an
    [option float], [None] standing for [undefined]. *)

From Stdlib Require Import ZArith Floats Uint63 String List Bool Lia.
Import ListNotations.

#[local] Set Warnings "-inexact-float".
#[local] Open Scope string_scope.
#[local] Open Scope list_scope.
#[local] Open Scope float_scope.

(* ================================================================== *)
(** ** The JavaScript operations the sources rely on *)

Module JS.

(** How a call ends: with a value, or with a thrown [Error]. *)
Inductive Completion (A : Type) : Type :=
| Normal (value : A)
| Throw (message : string).
Arguments Normal {A} value.
Arguments Throw {A} message.

(** [ToNumber] on a [number | undefined]: [undefined] becomes [NaN].  This
    is what every arithmetic operator applies to its operands, and
    arithmetic is the only use the engine makes of the fields it reads
    through a non-null assertion ([x!] is erased at compile time). *)
Definition num (x : option float) : float :=
  match x with
  | Some v => v
  | None => nan
  end.

(** [ToBoolean] on a number: [0], [-0] and [NaN] are falsy. *)
Definition truthyNum (x : float) : bool :=
  negb ((x =? 0) || is_nan x).

(** [ToBoolean] on a [number | undefined]. *)
Definition truthy (x : option float) : bool :=
  match x with
  | Some v => truthyNum v
  | None => false
  end.

(** [x != null]. *)
Definition notNull {A : Type} (x : option A) : bool :=
  match x with
  | Some _ => true
  | None => false
  end.

Definition Z2float (z : Z) : float :=
  match z with
  | Z0 => 0
  | Zpos p => of_uint63 (Uint63.of_Z (Zpos p))
  | Zneg p => - of_uint63 (Uint63.of_Z (Zpos p))
  end.

(** [Math.round]: the nearest integer, ties towards [+Infinity]; [NaN],
    the infinities and the zeros are returned unchanged, and a negative
    argument that rounds to zero gives [-0].  A finite non-zero double is
    [(-1)^s * m * 2^e]; for [e < 0] the result is
    [floor (x + 1/2) = floor ((2 * (+-m) + 2^-e) / 2^(1-e))], an integer
    below [2^53] and so a double. *)
Definition Math_round (x : float) : float :=
  match Prim2SF x with
  | S754_finite s m e =>
      if (0 <=? e)%Z then x
      else
        let sm := if s then Zneg m else Zpos m in
        let n := ((2 * sm + 2 ^ (- e)) / 2 ^ (- e + 1))%Z in
        if (n =? 0)%Z then (if s then -0 else 0) else Z2float n
  | _ => x
  end.

(** [Number.isFinite]. *)
Definition isFinite (x : float) : bool :=
  negb (is_nan x || is_infinity x).

Definition isNegZero (x : float) : bool :=
  match classify x with
  | NZero => true
  | _ => false
  end.

(** [Math.min] and [Math.max] of two numbers. *)
Definition Math_min (a b : float) : float :=
  if is_nan a || is_nan b then nan
  else if a <? b then a
  else if b <? a then b
  else if isNegZero a then a else b.

Definition Math_max (a b : float) : float :=
  if is_nan a || is_nan b then nan
  else if b <? a then a
  else if a <? b then b
  else if isNegZero a then b else a.

End JS.

(* ================================================================== *)
(** ** [src/types/nutrition.ts] *)

Module Types.

Inductive Sex : Type := male | female.
Inductive UnitSystem : Type := us | metric.
Inductive BodyFatMode : Type := known | unknown.

(** [ActivityPreset] is a union of number literals: a number at run time. *)
Definition ActivityPreset : Type := float.

Record DexaInput : Type := {
  enabled : bool;
  fatMassKg : option float;
  leanMassKg : option float
}.

Record Height : Type := { cm : option float; inches : option float }.
Record Weight : Type := { kg : option float; lb : option float }.

Record Activity : Type := {
  preset : option ActivityPreset;
  useCustom : bool;
  customMultiplier : option float
}.

Record Deltas : Type := { cut : float; bulk : float; recomp : float }.

Record ProfileInput : Type := {
  unitSystem : UnitSystem;
  sex : Sex;
  ageYears : float;
  height : Height;
  weight : Weight;
  bodyFatMode : BodyFatMode;
  bodyFatPercent : option float;
  activity : Activity;
  deltas : Deltas;
  bulkProteinGPerLb : float;
  dexa : DexaInput
}.

Definition isKnown (m : BodyFatMode) : bool :=
  match m with
  | known => true
  | unknown => false
  end.

End Types.

(* ================================================================== *)
(** ** The result types (declared alike by both engine files) *)

Module Out.

Record Methods : Type := {
  mifflin : option float;
  revisedHarrisBenedict : option float;
  katchMcArdle : option float;
  nelson : option float;
  muller : option float
}.

Record BmrBreakdown : Type := {
  recommendedBmr : float;
  methods : Methods
}.

Record MacroTargets : Type := {
  calories : float;
  proteinG : float;
  fatG : float;
  carbsG : float
}.

Record Results : Type := {
  bmr : BmrBreakdown;
  tdee : float;
  maintenance : MacroTargets;
  cut : MacroTargets;
  bulk : MacroTargets;
  recomp : MacroTargets;
  warnings : list string
}.

End Out.

(* ================================================================== *)
(** ** The calculation engine (the full [calculateAll]) *)

Module Engine.

Import JS.

Definition round (n : float) : float := Math_round n.

Definition lbToKg (lb : float) : float := lb * 0.45359237.
Definition inToCm (inches : float) : float := inches * 2.54.

(** The [warnings] array that [makeMacros] pushes to is threaded as a
    state: a computation takes the array as it is and returns it as it
    leaves it. *)
Definition W (A : Type) : Type := list string -> A * list string.

Definition ret {A : Type} (a : A) : W A := fun ws => (a, ws).

Definition bind {A B : Type} (m : W A) (k : A -> W B) : W B :=
  fun ws => let (a, ws') := m ws in k a ws'.

Definition push (s : string) : W unit := fun ws => (tt, ws ++ [s]).

#[local] Notation "x <- m ;; k" := (bind m (fun x => k))
  (at level 61, m at next level, right associativity).
#[local] Notation "m ;;; k" := (bind m (fun _ => k))
  (at level 61, right associativity).

Definition makeMacros (calories proteinG fatPercent : float)
  : W Out.MacroTargets :=
  let fatCalories := calories * fatPercent in
  let fatG := fatCalories / 9 in
  (if fatG <? 50 then push "Fat intake is below 50 g/day." else ret tt) ;;;
  let remainingCalories := calories - proteinG * 4 - fatG * 9 in
  let carbsG := remainingCalories / 4 in
  ret {| Out.calories := round calories;
         Out.proteinG := round proteinG;
         Out.fatG := round fatG;
         Out.carbsG := round carbsG |}.

Section CalculateAll.

Variable input : Types.ProfileInput.

(** *** Normalize units *)

Definition weightKg : float :=
  match Types.unitSystem input with
  | Types.us => lbToKg (num (Types.lb (Types.weight input)))
  | Types.metric => num (Types.kg (Types.weight input))
  end.

Definition weightLb : float := weightKg / 0.45359237.

Definition heightCm : float :=
  match Types.unitSystem input with
  | Types.us => inToCm (num (Types.inches (Types.height input)))
  | Types.metric => num (Types.cm (Types.height input))
  end.

Definition sexFactor : float :=
  match Types.sex input with
  | Types.male => 5
  | Types.female => -161
  end.

(** *** Body composition *)

(** The two [let] variables after the first [if]. *)
Definition dexaMasses : option float * option float :=
  if Types.enabled (Types.dexa input)
  then (Types.fatMassKg (Types.dexa input),
        Types.leanMassKg (Types.dexa input))
  else (None, None).

(** The two variables after the second [if]. *)
Definition composition : option float * option float :=
  let (fatMassKg, leanMassKg) := dexaMasses in
  if (negb (truthy fatMassKg) || negb (truthy leanMassKg))
     && Types.isKnown (Types.bodyFatMode input)
     && notNull (Types.bodyFatPercent input)
  then
    let fatMassKg' :=
      weightKg * (num (Types.bodyFatPercent input) / 100) in
    (Some fatMassKg', Some (weightKg - fatMassKg'))
  else (fatMassKg, leanMassKg).

Definition fatMassKg : option float := fst composition.
Definition leanMassKg : option float := snd composition.

(** *** BMR formulas *)

Definition mifflin : float :=
  10 * weightKg + 6.25 * heightCm - 5 * Types.ageYears input + sexFactor.

Definition revisedHarrisBenedict : float :=
  match Types.sex input with
  | Types.male =>
      88.362 + 13.397 * weightKg + 4.799 * heightCm
      - 5.677 * Types.ageYears input
  | Types.female =>
      447.593 + 9.247 * weightKg + 3.098 * heightCm
      - 4.33 * Types.ageYears input
  end.

Definition katchMcArdle : option float :=
  match leanMassKg with
  | Some lean => Some (370 + 21.6 * lean)
  | None => None
  end.

Definition nelson : option float :=
  match fatMassKg, leanMassKg with
  | Some fat, Some lean => Some (25.8 * lean + 4.04 * fat)
  | _, _ => None
  end.

Definition muller : option float :=
  match fatMassKg, leanMassKg with
  | Some fat, Some lean => Some (13.587 * lean + 9.613 * fat + 198)
  | _, _ => None
  end.

(** *** Recommended BMR *)

Definition recommendedBmr : float :=
  if Types.isKnown (Types.bodyFatMode input) && notNull katchMcArdle
  then num katchMcArdle
  else (mifflin + revisedHarrisBenedict) / 2.

(** *** TDEE *)

Definition activityMultiplier : float :=
  if Types.useCustom (Types.activity input)
  then num (Types.customMultiplier (Types.activity input))
  else num (Types.preset (Types.activity input)).

Definition tdee : float := recommendedBmr * activityMultiplier.

(** *** Macro calculations *)

Definition goals : W (Out.MacroTargets * Out.MacroTargets
                      * Out.MacroTargets * Out.MacroTargets) :=
  maintenance <- makeMacros tdee (weightLb * 1.0) 0.25 ;;
  cut <- makeMacros (tdee + Types.cut (Types.deltas input))
                    (weightLb * 1.0) 0.25 ;;
  recomp <- makeMacros (tdee + Types.recomp (Types.deltas input))
                       (weightLb * 1.0) 0.2 ;;
  let bulkProtein := weightLb * Types.bulkProteinGPerLb input in
  bulk <- makeMacros (tdee + Types.bulk (Types.deltas input))
                     bulkProtein 0.3 ;;
  ret (maintenance, cut, recomp, bulk).

(** [x ? round(x) : undefined] on an optional method value. *)
Definition roundIfTruthy (x : option float) : option float :=
  if truthy x then Some (round (num x)) else None.

(** The function itself has no [throw] and no operation that can raise:
    it always ends normally. *)
Definition calculateAll : Completion Out.Results :=
  let warnings : list string := [] in
  let '((maintenance, cut, recomp, bulk), warnings) := goals warnings in
  Normal
    {| Out.bmr :=
         {| Out.recommendedBmr := round recommendedBmr;
            Out.methods :=
              {| Out.mifflin := Some (round mifflin);
                 Out.revisedHarrisBenedict :=
                   Some (round revisedHarrisBenedict);
                 Out.katchMcArdle := roundIfTruthy katchMcArdle;
                 Out.nelson := roundIfTruthy nelson;
                 Out.muller := roundIfTruthy muller |} |};
       Out.tdee := round tdee;
       Out.maintenance := maintenance;
       Out.cut := cut;
       Out.bulk := bulk;
       Out.recomp := recomp;
       Out.warnings := warnings |}.

End CalculateAll.

End Engine.

(* ================================================================== *)
(** ** [src/lib/calcs.ts]: the placeholder the page imports *)

Module LibCalcs.

Definition calculateAll (_input : Types.ProfileInput)
  : JS.Completion Out.Results :=
  JS.Throw "Not implemented yet".

End LibCalcs.

(* ================================================================== *)
(** ** The page component: how [Home] obtains its results *)

Module Page.

(** The [useMemo] callback of [Home]: [null] without an input, otherwise
    the engine imported from [@/lib/calcs] inside a [try], any throw
    being mapped to [null]. *)
Definition results (input : option Types.ProfileInput)
  : option Out.Results :=
  match input with
  | None => None
  | Some i =>
      match LibCalcs.calculateAll i with
      | JS.Normal r => Some r
      | JS.Throw _ => None
      end
  end.

End Page.


(* ================================================================== *)
(** ** [src/lib/schema.ts]: the form schema and the normalizer *)

Module Schema.

Import JS.

Definition clamp (n min max : float) : float :=
  Math_max min (Math_min max n).

Definition normalizeBodyFatPercent (raw : float) : float :=
  if negb (isFinite raw) then raw
  else if (0 <? raw) && (raw <=? 1) then raw * 100
  else raw.

(** The form values as the object schema yields them: every field
    coerced, the defaults filled in. *)
Record ProfileFormValues : Type := {
  unitSystem : Types.UnitSystem;
  sex : Types.Sex;
  ageYears : float;
  heightInches : option float;
  heightCm : option float;
  weightLb : option float;
  weightKg : option float;
  bodyFatMode : Types.BodyFatMode;
  bodyFatPercent : option float;
  activityPreset : option float;
  activityUseCustom : bool;
  activityCustom : option float;
  cutDelta : float;
  bulkDelta : float;
  recompDelta : float;
  bulkProteinGPerLb : float;
  dexaEnabled : bool;
  dexaFatMassKg : option float;
  dexaLeanMassKg : option float
}.

(** What the field schemas themselves demand: a coerced number is never
    [NaN], and [ageYears] is a positive integer. *)
Definition isNumber (x : float) : bool := negb (is_nan x).

Definition isOptionalNumber (x : option float) : bool :=
  match x with
  | Some v => isNumber v
  | None => true
  end.

Definition isInteger (x : float) : bool :=
  isFinite x && (Math_round x =? x).

Definition fieldsOk (val : ProfileFormValues) : bool :=
  isNumber (ageYears val) && isInteger (ageYears val) && (0 <? ageYears val)
  && isOptionalNumber (heightInches val) && isOptionalNumber (heightCm val)
  && isOptionalNumber (weightLb val) && isOptionalNumber (weightKg val)
  && isOptionalNumber (bodyFatPercent val)
  && isOptionalNumber (activityPreset val)
  && isOptionalNumber (activityCustom val)
  && isNumber (cutDelta val) && isNumber (bulkDelta val)
  && isNumber (recompDelta val) && isNumber (bulkProteinGPerLb val)
  && isOptionalNumber (dexaFatMassKg val)
  && isOptionalNumber (dexaLeanMassKg val).

(** [!x || x <= 0] *)
Definition missingOrNotPositive (x : option float) : bool :=
  negb (truthy x) || (num x <=? 0).

(** [x == null || !Number.isFinite(x)] *)
Definition missingOrNotFinite (x : option float) : bool :=
  negb (notNull x) || negb (isFinite (num x)).

(** [x != null && Number.isFinite(x) && x > 0] *)
Definition hasMass (x : option float) : bool :=
  notNull x && isFinite (num x) && (0 <? num x).

Definition issueIf (c : bool) (path : string) : list string :=
  if c then [path] else [].

(** The [superRefine] callback: the paths of the issues it adds. *)
Definition superRefine (val : ProfileFormValues) : list string :=
  (match unitSystem val with
   | Types.us =>
       issueIf (missingOrNotPositive (heightInches val)) "heightInches"
       ++ issueIf (missingOrNotPositive (weightLb val)) "weightLb"
   | Types.metric =>
       issueIf (missingOrNotPositive (heightCm val)) "heightCm"
       ++ issueIf (missingOrNotPositive (weightKg val)) "weightKg"
   end)
  ++ (match bodyFatMode val with
      | Types.known =>
          issueIf (missingOrNotFinite (bodyFatPercent val)) "bodyFatPercent"
      | Types.unknown => []
      end)
  ++ (if activityUseCustom val
      then issueIf (missingOrNotFinite (activityCustom val)) "activityCustom"
      else issueIf (missingOrNotFinite (activityPreset val)) "activityPreset")
  ++ (if dexaEnabled val
      then
        let hasFat := hasMass (dexaFatMassKg val) in
        let hasLean := hasMass (dexaLeanMassKg val) in
        issueIf (negb hasFat && negb hasLean) "dexaFatMassKg"
      else [])
  ++ (if negb (isFinite (bulkProteinGPerLb val))
      then ["bulkProteinGPerLb"]
      else issueIf ((bulkProteinGPerLb val <? 0.7)
                    || (1.0 <? bulkProteinGPerLb val)) "bulkProteinGPerLb").

(** [profileFormSchema.safeParse(vals).success] *)
Definition success (val : ProfileFormValues) : bool :=
  fieldsOk val
  && match superRefine val with
     | [] => true
     | _ :: _ => false
     end.

Definition toProfileInput (v : ProfileFormValues) : Types.ProfileInput :=
  let bfPercent :=
    if Types.isKnown (bodyFatMode v) && notNull (bodyFatPercent v)
    then Some (normalizeBodyFatPercent (num (bodyFatPercent v)))
    else None in
  let normalizedBf :=
    if notNull bfPercent then Some (clamp (num bfPercent) 0 80) else None in
  {| Types.unitSystem := unitSystem v;
     Types.sex := sex v;
     Types.ageYears := ageYears v;
     Types.height :=
       {| Types.inches := match unitSystem v with
                          | Types.us => heightInches v
                          | Types.metric => None
                          end;
          Types.cm := match unitSystem v with
                      | Types.metric => heightCm v
                      | Types.us => None
                      end |};
     Types.weight :=
       {| Types.lb := match unitSystem v with
                      | Types.us => weightLb v
                      | Types.metric => None
                      end;
          Types.kg := match unitSystem v with
                      | Types.metric => weightKg v
                      | Types.us => None
                      end |};
     Types.bodyFatMode := bodyFatMode v;
     Types.bodyFatPercent := normalizedBf;
     Types.activity :=
       {| Types.preset :=
            if activityUseCustom v then None else activityPreset v;
          Types.useCustom := activityUseCustom v;
          Types.customMultiplier :=
            if activityUseCustom v then activityCustom v else None |};
     Types.deltas :=
       {| Types.cut := cutDelta v;
          Types.bulk := bulkDelta v;
          Types.recomp := recompDelta v |};
     Types.bulkProteinGPerLb := bulkProteinGPerLb v;
     Types.dexa :=
       {| Types.enabled := dexaEnabled v;
          Types.fatMassKg := if dexaEnabled v then dexaFatMassKg v else None;
          Types.leanMassKg :=
            if dexaEnabled v then dexaLeanMassKg v else None |} |}.

End Schema.

(* ================================================================== *)
(** ** The specification's own words, as definitions *)

Module Spec.

(** The four goals, in the order the engine evaluates them. *)
Inductive Goal : Type := Maintenance | Cut | Recomp | Bulk.

Definition goalOrder : list Goal := [Maintenance; Cut; Recomp; Bulk].

Definition fatWarning : string := "Fat intake is below 50 g/day.".

(** The shared macro sub-routine as the specification words it: fat grams
    from the fat fraction at 9 kcal/g, carbohydrates from what remains at
    4 kcal/g, the four fields rounded independently at the end. *)
Definition computeMacros (calories proteinG fatFraction : float)
  : Out.MacroTargets :=
  let fatG := calories * fatFraction / 9 in
  let carbsG := (calories - proteinG * 4 - fatG * 9) / 4 in
  {| Out.calories := Engine.round calories;
     Out.proteinG := Engine.round proteinG;
     Out.fatG := Engine.round fatG;
     Out.carbsG := Engine.round carbsG |}.

(** The table of per-goal parameters, on the unrounded TDEE. *)
Definition calorieBase (input : Types.ProfileInput) (g : Goal) : float :=
  match g with
  | Maintenance => Engine.tdee input
  | Cut => Engine.tdee input + Types.cut (Types.deltas input)
  | Recomp => Engine.tdee input + Types.recomp (Types.deltas input)
  | Bulk => Engine.tdee input + Types.bulk (Types.deltas input)
  end.

Definition proteinGrams (input : Types.ProfileInput) (g : Goal) : float :=
  match g with
  | Maintenance | Cut | Recomp => Engine.weightLb input * 1.0
  | Bulk => Engine.weightLb input * Types.bulkProteinGPerLb input
  end.

Definition fatFraction (g : Goal) : float :=
  match g with
  | Maintenance | Cut => 0.25
  | Recomp => 0.20
  | Bulk => 0.30
  end.

Definition goalMacros (input : Types.ProfileInput) (g : Goal)
  : Out.MacroTargets :=
  computeMacros (calorieBase input g) (proteinGrams input g) (fatFraction g).

(** A goal's fat grams before rounding. *)
Definition goalFatG (input : Types.ProfileInput) (g : Goal) : float :=
  calorieBase input g * fatFraction g / 9.

Definition lowFat (input : Types.ProfileInput) (g : Goal) : bool :=
  goalFatG input g <? 50.

(** The first-applicable-wins resolution of body composition, worded as
    the specification words it: the DEXA pair when both are present, else
    the body-fat percentage, else nothing. *)
Definition resolveComposition (input : Types.ProfileInput)
  : option float * option float :=
  match Types.enabled (Types.dexa input),
        Types.fatMassKg (Types.dexa input),
        Types.leanMassKg (Types.dexa input) with
  | true, Some fat, Some lean => (Some fat, Some lean)
  | _, _, _ =>
      match Types.bodyFatMode input, Types.bodyFatPercent input with
      | Types.known, Some bodyFatPercent =>
          let fat := Engine.weightKg input * (bodyFatPercent / 100) in
          (Some fat, Some (Engine.weightKg input - fat))
      | _, _ => (None, None)
      end
  end.

(** The fields the active unit system and [useCustom] make authoritative. *)
Definition activeWeight (input : Types.ProfileInput) : option float :=
  match Types.unitSystem input with
  | Types.us => Types.lb (Types.weight input)
  | Types.metric => Types.kg (Types.weight input)
  end.

Definition activeHeight (input : Types.ProfileInput) : option float :=
  match Types.unitSystem input with
  | Types.us => Types.inches (Types.height input)
  | Types.metric => Types.cm (Types.height input)
  end.

Definition selectedActivity (input : Types.ProfileInput) : option float :=
  if Types.useCustom (Types.activity input)
  then Types.customMultiplier (Types.activity input)
  else Types.preset (Types.activity input).

(** A required scalar is missing. *)
Definition requiredMissing (input : Types.ProfileInput) : bool :=
  negb (JS.notNull (activeWeight input))
  || negb (JS.notNull (activeHeight input))
  || negb (JS.notNull (selectedActivity input)).


(** The value the engine is shown below to return, in closed form: the
    rounded figures of the engine's own intermediate values, the goals'
    macros by the table above, and one warning per low-fat goal. *)
Definition resultOf (input : Types.ProfileInput) : Out.Results :=
  {| Out.bmr :=
       {| Out.recommendedBmr := Engine.round (Engine.recommendedBmr input);
          Out.methods :=
            {| Out.mifflin := Some (Engine.round (Engine.mifflin input));
               Out.revisedHarrisBenedict :=
                 Some (Engine.round (Engine.revisedHarrisBenedict input));
               Out.katchMcArdle :=
                 Engine.roundIfTruthy (Engine.katchMcArdle input);
               Out.nelson := Engine.roundIfTruthy (Engine.nelson input);
               Out.muller := Engine.roundIfTruthy (Engine.muller input) |} |};
     Out.tdee := Engine.round (Engine.tdee input);
     Out.maintenance := goalMacros input Maintenance;
     Out.cut := goalMacros input Cut;
     Out.bulk := goalMacros input Bulk;
     Out.recomp := goalMacros input Recomp;
     Out.warnings :=
       map (fun _ => fatWarning)
           (filter (lowFat input) goalOrder) |}.

(** The pound values the form can produce with its step of 0.1: [count]
    of them from [k / 10] on, and those from 0.1 to 1000 lb. *)
Fixpoint tenths (count : nat) (k : float) : list float :=
  match count with
  | O => []
  | S count' => k / 10 :: tenths count' (k + 1)
  end.

Definition formWeights : list float := tenths (100 * 100) 1.

(** A weight's round trip through kilograms. *)
Definition roundTripLb (lb : float) : float :=
  Engine.lbToKg lb / 0.45359237.

End Spec.

(* ================================================================== *)
(** ** Sample profiles *)

Module Samples.

(** Form values of a 30-year-old man, 70 in tall, moderately active
    (preset 1.55), with bulk and recomposition deltas of +500 and -200 and
    1.0 g/lb of protein when bulking; the rest is given. *)
Definition formValues (weightLb : option float)
  (bodyFatMode : Types.BodyFatMode) (bodyFatPercent : option float)
  (cutDelta : float) (dexaEnabled : bool)
  (dexaFatMassKg dexaLeanMassKg : option float)
  : Schema.ProfileFormValues :=
  {| Schema.unitSystem := Types.us;
     Schema.sex := Types.male;
     Schema.ageYears := 30;
     Schema.heightInches := Some 70;
     Schema.heightCm := None;
     Schema.weightLb := weightLb;
     Schema.weightKg := None;
     Schema.bodyFatMode := bodyFatMode;
     Schema.bodyFatPercent := bodyFatPercent;
     Schema.activityPreset := Some 1.55;
     Schema.activityUseCustom := false;
     Schema.activityCustom := None;
     Schema.cutDelta := cutDelta;
     Schema.bulkDelta := 500;
     Schema.recompDelta := -200;
     Schema.bulkProteinGPerLb := 1.0;
     Schema.dexaEnabled := dexaEnabled;
     Schema.dexaFatMassKg := dexaFatMassKg;
     Schema.dexaLeanMassKg := dexaLeanMassKg |}.

(** 180 lb, body fat unknown, no DEXA, cut of -500: the specification's
    first example. *)
Definition plainForm : Schema.ProfileFormValues :=
  formValues (Some 180) Types.unknown None (-500) false None None.
Definition plain : Types.ProfileInput := Schema.toProfileInput plainForm.

(** The same with a body-fat percentage of 20: the second example. *)
Definition knownForm : Schema.ProfileFormValues :=
  formValues (Some 180) Types.known (Some 20) (-500) false None None.
Definition known : Types.ProfileInput := Schema.toProfileInput knownForm.

(** A DEXA scan giving both masses, body fat mode left on unknown. *)
Definition dexaBothForm : Schema.ProfileFormValues :=
  formValues (Some 180) Types.unknown None (-500) true (Some 16) (Some 65).
Definition dexaBoth : Types.ProfileInput :=
  Schema.toProfileInput dexaBothForm.

(** A DEXA scan giving the lean mass only: the third example. *)
Definition dexaLeanOnlyForm : Schema.ProfileFormValues :=
  formValues (Some 180) Types.unknown None (-500) true None (Some 65).
Definition dexaLeanOnly : Types.ProfileInput :=
  Schema.toProfileInput dexaLeanOnlyForm.

(** A DEXA scan with a fat mass of zero, body fat known to be 20 %. *)
Definition dexaZeroFatForm : Schema.ProfileFormValues :=
  formValues (Some 180) Types.known (Some 20) (-500) true (Some 0) (Some 65).
Definition dexaZeroFat : Types.ProfileInput :=
  Schema.toProfileInput dexaZeroFatForm.

(** DEXA masses whose Nelson estimate,
    [25.8 * 4.04 + 4.04 * (-25.8)], is exactly zero. *)
Definition zeroNelsonForm : Schema.ProfileFormValues :=
  formValues (Some 180) Types.unknown None (-500) true
    (Some (-25.8)) (Some 4.04).
Definition zeroNelson : Types.ProfileInput :=
  Schema.toProfileInput zeroNelsonForm.

(** A cut so deep that protein and fat exceed the calorie base: the
    fourth example. *)
Definition deepCutForm : Schema.ProfileFormValues :=
  formValues (Some 180) Types.unknown None (-2500) false None None.
Definition deepCut : Types.ProfileInput := Schema.toProfileInput deepCutForm.


(** No weight at all: what the schema refuses and the type allows. *)
Definition noWeightForm : Schema.ProfileFormValues :=
  formValues None Types.unknown None (-500) false None None.
Definition noWeight : Types.ProfileInput :=
  Schema.toProfileInput noWeightForm.

End Samples.

(* ================================================================== *)
(** ** [src/lib/format.ts] *)

Module Format.

Import JS.

Section Locale.

(** [Number.prototype.toLocaleString] depends on the host's locale: it is
    left as it is, a function from numbers to strings. *)
Variable toLocaleString : float -> string.

Definition fmtInt (n : float) : string :=
  if negb (isFinite n) then "—"
  else toLocaleString (Math_round n).

Definition fmtMaybeInt (n : option float) : string :=
  if negb (notNull n) || negb (isFinite (num n)) then "—"
  else toLocaleString (Math_round (num n)).

End Locale.

End Format.

(* ================================================================== *)
(** ** [src/components/ResultsPanel.tsx]: what the panel computes *)

Module ResultsPanel.

Import JS.

(** The [pct] closure of [MacroCard]: the share of [cals] in the card's
    calories, in percent, and 0 when the calories are not above 0. *)
Definition pct (data : Out.MacroTargets) (cals : float) : float :=
  if 0 <? Out.calories data
  then Math_round (cals / Out.calories data * 100)
  else 0.

(** The three percentages a [MacroCard] prints: protein at 4 kcal/g, fat
    at 9 kcal/g, carbohydrates at 4 kcal/g. *)
Definition cardPercents (data : Out.MacroTargets) : float * float * float :=
  let proteinCals := Out.proteinG data * 4 in
  let fatCals := Out.fatG data * 9 in
  let carbsCals := Out.carbsG data * 4 in
  (pct data proteinCals, pct data fatCals, pct data carbsCals).

(** [results.warnings.length > 0]: whether the warnings box is rendered. *)
Definition showsWarnings (results : Out.Results) : bool :=
  (0 <? length (Out.warnings results))%nat.

(** The value of a row of the list of BMR formulas. *)
Definition methodValue (toLocaleString : float -> string)
  (method : option float) : string :=
  (Format.fmtMaybeInt toLocaleString method ++ " kcal")%string.

End ResultsPanel.

(* ================================================================== *)
(** ** Profiles that differ in some fields *)

Module Update.

Definition withComposition (mode : Types.BodyFatMode)
  (percent : option float) (d : Types.DexaInput)
  (input : Types.ProfileInput) : Types.ProfileInput :=
  {| Types.unitSystem := Types.unitSystem input;
     Types.sex := Types.sex input;
     Types.ageYears := Types.ageYears input;
     Types.height := Types.height input;
     Types.weight := Types.weight input;
     Types.bodyFatMode := mode;
     Types.bodyFatPercent := percent;
     Types.activity := Types.activity input;
     Types.deltas := Types.deltas input;
     Types.bulkProteinGPerLb := Types.bulkProteinGPerLb input;
     Types.dexa := d |}.

Definition withDexa (d : Types.DexaInput) (input : Types.ProfileInput)
  : Types.ProfileInput :=
  withComposition (Types.bodyFatMode input) (Types.bodyFatPercent input) d
    input.

Definition withGoalSettings (d : Types.Deltas) (bulkProtein : float)
  (input : Types.ProfileInput) : Types.ProfileInput :=
  {| Types.unitSystem := Types.unitSystem input;
     Types.sex := Types.sex input;
     Types.ageYears := Types.ageYears input;
     Types.height := Types.height input;
     Types.weight := Types.weight input;
     Types.bodyFatMode := Types.bodyFatMode input;
     Types.bodyFatPercent := Types.bodyFatPercent input;
     Types.activity := Types.activity input;
     Types.deltas := d;
     Types.bulkProteinGPerLb := bulkProtein;
     Types.dexa := Types.dexa input |}.

Definition withActivity (a : Types.Activity) (input : Types.ProfileInput)
  : Types.ProfileInput :=
  {| Types.unitSystem := Types.unitSystem input;
     Types.sex := Types.sex input;
     Types.ageYears := Types.ageYears input;
     Types.height := Types.height input;
     Types.weight := Types.weight input;
     Types.bodyFatMode := Types.bodyFatMode input;
     Types.bodyFatPercent := Types.bodyFatPercent input;
     Types.activity := a;
     Types.deltas := Types.deltas input;
     Types.bulkProteinGPerLb := Types.bulkProteinGPerLb input;
     Types.dexa := Types.dexa input |}.

(** The first example with neither activity source populated. *)
Definition noActivity : Types.ProfileInput :=
  withActivity {| Types.preset := None;
                  Types.useCustom := false;
                  Types.customMultiplier := None |} Samples.plain.

Definition noDexa : Types.DexaInput :=
  {| Types.enabled := false;
     Types.fatMassKg := None;
     Types.leanMassKg := None |}.

End Update.

(* ================================================================== *)
(** ** The macro split, and where rounding could have gone wrong *)

Module Rounding.

(** The shared macro sub-routine in plain arithmetic: fat grams
    [calories * fatFraction / 9], carbohydrates
    [(calories - proteinG * 4 - fatG * 9) / 4], and [Math.round] applied to
    each of the four fields at the very end, never before. *)
Definition macroSplit (calories proteinG fatFraction : float)
  : Out.MacroTargets :=
  let fatG := calories * fatFraction / 9 in
  let carbsG := (calories - proteinG * 4 - fatG * 9) / 4 in
  {| Out.calories := JS.Math_round calories;
     Out.proteinG := JS.Math_round proteinG;
     Out.fatG := JS.Math_round fatG;
     Out.carbsG := JS.Math_round carbsG |}.

(** The same split with the fat grams rounded before the carbohydrates are
    computed from them: what the engine does not do. *)
Definition macroSplitFatRoundedFirst (calories proteinG fatFraction : float)
  : Out.MacroTargets :=
  let fatG := JS.Math_round (calories * fatFraction / 9) in
  let carbsG := (calories - proteinG * 4 - fatG * 9) / 4 in
  {| Out.calories := JS.Math_round calories;
     Out.proteinG := JS.Math_round proteinG;
     Out.fatG := JS.Math_round fatG;
     Out.carbsG := JS.Math_round carbsG |}.

(** A 30-year-old man of 200.5 lb and 70 in, body fat unknown, activity
    1.55, deltas -500, -200 and +500, 1.0 g/lb when bulking: his TDEE is
    2995.69... kcal and his weight has a half pound, so that every premature
    rounding shows in some figure. *)
Definition sampleForm : Schema.ProfileFormValues :=
  Samples.formValues (Some 200.5) Types.unknown None (-500) false None None.

Definition sample : Types.ProfileInput := Schema.toProfileInput sampleForm.

End Rounding.

(* ================================================================== *)
(** ** [NaN] through the arithmetic operators *)

Section NaN.

Lemma Prim2SF_nan : Prim2SF nan = S754_nan.
Proof. reflexivity. Qed.

Lemma mul_nan_l (x : float) : nan * x = nan.
Proof.
  apply Prim2SF_inj. rewrite FloatAxioms.mul_spec, Prim2SF_nan. reflexivity.
Qed.

Lemma mul_nan_r (x : float) : x * nan = nan.
Proof.
  apply Prim2SF_inj. rewrite FloatAxioms.mul_spec, Prim2SF_nan.
  unfold SF64mul, SFmul. destruct (Prim2SF x); reflexivity.
Qed.

Lemma add_nan_l (x : float) : nan + x = nan.
Proof.
  apply Prim2SF_inj. rewrite FloatAxioms.add_spec, Prim2SF_nan. reflexivity.
Qed.

Lemma add_nan_r (x : float) : x + nan = nan.
Proof.
  apply Prim2SF_inj. rewrite FloatAxioms.add_spec, Prim2SF_nan.
  unfold SF64add, SFadd. destruct (Prim2SF x); reflexivity.
Qed.

Lemma sub_nan_l (x : float) : nan - x = nan.
Proof.
  apply Prim2SF_inj. rewrite FloatAxioms.sub_spec, Prim2SF_nan. reflexivity.
Qed.

Lemma div_nan_l (x : float) : nan / x = nan.
Proof.
  apply Prim2SF_inj. rewrite FloatAxioms.div_spec, Prim2SF_nan. reflexivity.
Qed.

Lemma round_nan : Engine.round nan = nan.
Proof. reflexivity. Qed.

End NaN.

(* ================================================================== *)
(** ** The engine always returns *)

(** What the engine returns, as a function of the profile and of the four
    goals' macros with the warnings they left. *)
Lemma calculateAll_unfold (input : Types.ProfileInput) :
  Engine.calculateAll input =
  let '((maintenance, cut, recomp, bulk), warnings) := Engine.goals input [] in
  JS.Normal
    {| Out.bmr :=
         {| Out.recommendedBmr := Engine.round (Engine.recommendedBmr input);
            Out.methods :=
              {| Out.mifflin := Some (Engine.round (Engine.mifflin input));
                 Out.revisedHarrisBenedict :=
                   Some (Engine.round (Engine.revisedHarrisBenedict input));
                 Out.katchMcArdle :=
                   Engine.roundIfTruthy (Engine.katchMcArdle input);
                 Out.nelson := Engine.roundIfTruthy (Engine.nelson input);
                 Out.muller := Engine.roundIfTruthy (Engine.muller input) |} |};
       Out.tdee := Engine.round (Engine.tdee input);
       Out.maintenance := maintenance;
       Out.cut := cut;
       Out.bulk := bulk;
       Out.recomp := recomp;
       Out.warnings := warnings |}.
Proof. reflexivity. Qed.

(** One call of [makeMacros]: the macros are those of the specification's
    sub-routine, and the warning is appended exactly when the unrounded fat
    grams are below 50. *)
Lemma makeMacros_run (calories proteinG fatPercent : float)
  (ws : list string) :
  Engine.makeMacros calories proteinG fatPercent ws =
  (Spec.computeMacros calories proteinG fatPercent,
   ws ++ (if calories * fatPercent / 9 <? 50 then [Spec.fatWarning] else [])).
Proof.
  unfold Engine.makeMacros, Engine.bind, Spec.computeMacros.
  destruct (calories * fatPercent / 9 <? 50); simpl.
  - reflexivity.
  - rewrite app_nil_r. reflexivity.
Qed.

(** The four calls in sequence. *)
Lemma goals_run (input : Types.ProfileInput) :
  Engine.goals input [] =
  ((Spec.goalMacros input Spec.Maintenance, Spec.goalMacros input Spec.Cut,
    Spec.goalMacros input Spec.Recomp, Spec.goalMacros input Spec.Bulk),
   map (fun _ => Spec.fatWarning) (filter (Spec.lowFat input) Spec.goalOrder)).
Proof.
  unfold Engine.goals, Engine.bind.
  repeat rewrite makeMacros_run.
  unfold Spec.goalOrder, Spec.lowFat, Spec.goalFatG, Spec.goalMacros. simpl.
  destruct (Engine.tdee input * 0.25 / 9 <? 50);
    destruct ((Engine.tdee input + Types.cut (Types.deltas input)) * 0.25 / 9
              <? 50);
    destruct ((Engine.tdee input + Types.recomp (Types.deltas input)) * 0.2 / 9
              <? 50);
    destruct ((Engine.tdee input + Types.bulk (Types.deltas input)) * 0.3 / 9
              <? 50);
    reflexivity.
Qed.

Lemma calculateAll_returns (input : Types.ProfileInput) :
  Engine.calculateAll input = JS.Normal (Spec.resultOf input).
Proof.
  rewrite calculateAll_unfold, goals_run. reflexivity.
Qed.

(* ================================================================== *)
(** ** Recommended BMR *)

(** C1. For every profile the engine returns, and the [recommendedBmr] of
    the result is the rounded Katch-McArdle estimate [370 + 21.6 * lean]
    exactly in the case where the body-fat mode is [known] and the lean mass
    was resolved to [lean]; in every other case it is the rounded mean of
    the Mifflin-St Jeor and Revised Harris-Benedict estimates.  In
    particular, with DEXA enabled, both masses supplied and the mode
    [unknown], Katch-McArdle is computable and the mean is recommended all
    the same. *)
Theorem C1_recommendedBmr_policy :
  forall (input : Types.ProfileInput) (fat lean : float),
  exists r : Out.Results,
    Engine.calculateAll input = JS.Normal r
    /\ Out.recommendedBmr (Out.bmr r) =
       match Types.bodyFatMode input, Engine.leanMassKg input with
       | Types.known, Some l => Engine.round (370 + 21.6 * l)
       | _, _ =>
           Engine.round
             ((Engine.mifflin input + Engine.revisedHarrisBenedict input) / 2)
       end
    /\ (Types.enabled (Types.dexa input) = true ->
        Types.fatMassKg (Types.dexa input) = Some fat ->
        Types.leanMassKg (Types.dexa input) = Some lean ->
        Types.bodyFatMode input = Types.unknown ->
        Engine.katchMcArdle input = Some (370 + 21.6 * lean)
        /\ Out.recommendedBmr (Out.bmr r) =
           Engine.round
             ((Engine.mifflin input + Engine.revisedHarrisBenedict input) / 2)).
Proof.
  intros input fat lean.
  exists (Spec.resultOf input). split; [apply calculateAll_returns|].
  split.
  - simpl. unfold Engine.recommendedBmr, Engine.katchMcArdle.
    destruct (Types.bodyFatMode input), (Engine.leanMassKg input);
      reflexivity.
  - intros Hen Hfat Hlean Hmode. simpl.
    unfold Engine.recommendedBmr, Engine.katchMcArdle, Engine.leanMassKg,
      Engine.composition, Engine.dexaMasses.
    rewrite Hen, Hfat, Hlean, Hmode. simpl.
    rewrite andb_false_r. simpl. split; reflexivity.
Qed.

Lemma C1_recommendedBmr_policy_witness :
  Engine.katchMcArdle Samples.dexaBoth = Some (370 + 21.6 * 65)
  /\ exists r : Out.Results,
       Engine.calculateAll Samples.dexaBoth = JS.Normal r
       /\ Out.recommendedBmr (Out.bmr r) = 1824.
Proof.
  destruct (C1_recommendedBmr_policy Samples.dexaBoth 16 65)
    as [r [Hr [_ Hdexa]]].
  destruct Hdexa as [Hk Hrec]; try reflexivity.
  split; [exact Hk|].
  exists r. split; [exact Hr|].
  rewrite Hrec. reflexivity.
Defined.

(* ================================================================== *)
(** ** The four goals *)

(** C2. For every profile the engine returns, and each of the four goal
    outputs is the shared macro sub-routine (fat grams
    [calories * fatFraction / 9], carbohydrates
    [(calories - proteinG * 4 - fatG * 9) / 4], [Math.round] applied to each
    of the four fields independently and only at the end) applied to the
    goal's row of the parameter table.  The calorie base is built on the
    TDEE before rounding, [recommendedBmr * activityMultiplier] on the
    unrounded recommended BMR, and the protein on the unrounded weight in
    pounds, [weightKg / 0.45359237]; the [tdee] of the result is the
    rounding of that same product. *)
Theorem C2_goal_macros :
  forall input : Types.ProfileInput,
  exists r : Out.Results,
    Engine.calculateAll input = JS.Normal r
    /\ Out.tdee r
       = JS.Math_round
           (Engine.recommendedBmr input * Engine.activityMultiplier input)
    /\ Out.maintenance r =
       Rounding.macroSplit
         (Engine.recommendedBmr input * Engine.activityMultiplier input)
         (Engine.weightKg input / 0.45359237 * 1.0) 0.25
    /\ Out.cut r =
       Rounding.macroSplit
         (Engine.recommendedBmr input * Engine.activityMultiplier input
          + Types.cut (Types.deltas input))
         (Engine.weightKg input / 0.45359237 * 1.0) 0.25
    /\ Out.recomp r =
       Rounding.macroSplit
         (Engine.recommendedBmr input * Engine.activityMultiplier input
          + Types.recomp (Types.deltas input))
         (Engine.weightKg input / 0.45359237 * 1.0) 0.20
    /\ Out.bulk r =
       Rounding.macroSplit
         (Engine.recommendedBmr input * Engine.activityMultiplier input
          + Types.bulk (Types.deltas input))
         (Engine.weightKg input / 0.45359237
          * Types.bulkProteinGPerLb input) 0.30.
Proof.
  intro input. exists (Spec.resultOf input).
  split; [apply calculateAll_returns|].
  repeat split.
Qed.

(** The figures of the 200.5 lb profile, which the schema accepts: TDEE
    2995.69... kcal, shown as 2996.  Maintenance is 2996 kcal, 201 g
    protein, 83 g fat, 361 g carbohydrates; cut 2496, 201, 69, 267; recomp
    2796, 201, 62, 359; bulk 3496, 201, 117, 411.  Every premature rounding
    would show: on the rounded TDEE, or on a TDEE from the rounded BMR, the
    cut has 268 g of carbohydrates, not 267; on the rounded protein the
    recomp has 358 g, not 359; and with the fat grams rounded before the
    carbohydrates the maintenance has 362 g, not 361. *)
Lemma C2_goal_macros_witness :
  Schema.success Rounding.sampleForm = true
  /\ (exists r : Out.Results,
        Engine.calculateAll Rounding.sample = JS.Normal r
        /\ Out.tdee r = 2996
        /\ Out.maintenance r
           = {| Out.calories := 2996; Out.proteinG := 201;
                Out.fatG := 83; Out.carbsG := 361 |}
        /\ Out.cut r
           = {| Out.calories := 2496; Out.proteinG := 201;
                Out.fatG := 69; Out.carbsG := 267 |}
        /\ Out.recomp r
           = {| Out.calories := 2796; Out.proteinG := 201;
                Out.fatG := 62; Out.carbsG := 359 |}
        /\ Out.bulk r
           = {| Out.calories := 3496; Out.proteinG := 201;
                Out.fatG := 117; Out.carbsG := 411 |})
  /\ Engine.recommendedBmr Rounding.sample * 1.55 = 2995.693282051795
  /\ Engine.weightKg Rounding.sample / 0.45359237 = 200.5
  /\ Out.carbsG (Rounding.macroSplit (2996 + -500) (200.5 * 1.0) 0.25) = 268
  /\ Out.carbsG
       (Rounding.macroSplit
          (JS.Math_round (Engine.recommendedBmr Rounding.sample) * 1.55
           + -500)
          (200.5 * 1.0) 0.25) = 268
  /\ Out.carbsG
       (Rounding.macroSplit (2995.693282051795 + -200) 201 0.20) = 358
  /\ Out.carbsG
       (Rounding.macroSplitFatRoundedFirst 2995.693282051795 (200.5 * 1.0)
          0.25) = 362.
Proof.
  split; [reflexivity|].
  split.
  - destruct (C2_goal_macros Rounding.sample)
      as [r [Hr [Ht [Hm [Hc [Hre Hb]]]]]].
    exists r. split; [exact Hr|].
    rewrite Ht, Hm, Hc, Hre, Hb.
    repeat split; vm_compute; reflexivity.
  - repeat split; vm_compute; reflexivity.
Defined.

(* ================================================================== *)
(** ** Warnings *)

Lemma filter_length_le {A : Type} (f : A -> bool) (l : list A) :
  (length (filter f l) <= length l)%nat.
Proof.
  induction l as [|a l IH]; simpl; [lia|].
  destruct (f a); simpl; lia.
Qed.

(** C5. For every profile the engine returns, and the warnings of the
    result are the literal ["Fat intake is below 50 g/day."] once per goal
    whose fat grams before rounding are below 50, the goals taken in the
    order maintenance, cut, recomp, bulk; there is no other entry, so the
    number of warnings is the number of such goals, at most 4. *)
Theorem C5_fat_warnings :
  forall input : Types.ProfileInput,
  exists r : Out.Results,
    Engine.calculateAll input = JS.Normal r
    /\ Out.warnings r =
       map (fun _ => "Fat intake is below 50 g/day.")
         (filter (fun g => Spec.goalFatG input g <? 50)
            [Spec.Maintenance; Spec.Cut; Spec.Recomp; Spec.Bulk])
    /\ Forall (fun w => w = "Fat intake is below 50 g/day.") (Out.warnings r)
    /\ length (Out.warnings r) =
       length (filter (fun g => Spec.goalFatG input g <? 50)
                 [Spec.Maintenance; Spec.Cut; Spec.Recomp; Spec.Bulk])
    /\ (length (Out.warnings r) <= 4)%nat.
Proof.
  intro input. exists (Spec.resultOf input).
  split; [apply calculateAll_returns|].
  simpl Out.warnings.
  split; [reflexivity|].
  split.
  - apply Forall_forall. intros w Hw.
    apply in_map_iff in Hw. destruct Hw as [g [Hg _]]. symmetry. exact Hg.
  - rewrite length_map. split; [reflexivity|].
    apply (filter_length_le (Spec.lowFat input) Spec.goalOrder).
Qed.

(* ================================================================== *)
(** ** Negative carbohydrates *)

(** C6. The macro sub-routine returns for every calorie base, protein
    value and fat fraction, whatever the warnings so far, and the [carbsG]
    it returns is the rounded value of
    [(calories - proteinG * 4 - fatG * 9) / 4], not clamped: on the deep-cut
    profile, which the schema accepts, the cut goal has 327 kcal, 180 g of
    protein and [carbsG = -119]. *)
Theorem C6_carbs_not_clamped :
  (forall (calories proteinG fatFraction : float) (ws : list string),
      exists (m : Out.MacroTargets) (ws' : list string),
        Engine.makeMacros calories proteinG fatFraction ws = (m, ws')
        /\ Out.carbsG m =
           Engine.round
             ((calories - proteinG * 4 - calories * fatFraction / 9 * 9) / 4))
  /\ Schema.success Samples.deepCutForm = true
  /\ exists r : Out.Results,
       Engine.calculateAll Samples.deepCut = JS.Normal r
       /\ Out.calories (Out.cut r) = 327
       /\ Out.proteinG (Out.cut r) = 180
       /\ Out.carbsG (Out.cut r) = -119
       /\ (Out.carbsG (Out.cut r) <? 0) = true.
Proof.
  split.
  - intros calories proteinG fatFraction ws.
    rewrite makeMacros_run. eexists. eexists. split; reflexivity.
  - split; [reflexivity|].
    eexists. split; [apply calculateAll_returns|].
    repeat split; vm_compute; reflexivity.
Qed.

(* ================================================================== *)
(** ** Body composition *)

(** C3, as stated, fails.  With DEXA enabled and only the lean mass
    supplied (a profile the schema accepts), the stated resolution leaves
    both masses unresolved, while the engine keeps the DEXA lean mass. *)
Lemma C3_lone_dexa_lean_mass_is_kept :
  Schema.success Samples.dexaLeanOnlyForm = true
  /\ Spec.resolveComposition Samples.dexaLeanOnly = (None, None)
  /\ Engine.composition Samples.dexaLeanOnly = (None, Some 65)
  /\ Engine.composition Samples.dexaLeanOnly
     <> Spec.resolveComposition Samples.dexaLeanOnly.
Proof.
  repeat split; try reflexivity.
  intro H. vm_compute in H. discriminate H.
Qed.

(** The truthiness test on the DEXA masses: a fat mass of zero next to a
    known body-fat percentage is overridden by the percentage. *)
Lemma dexa_zero_fat_is_overridden :
  Schema.success Samples.dexaZeroFatForm = true
  /\ Spec.resolveComposition Samples.dexaZeroFat = (Some 0, Some 65)
  /\ Engine.composition Samples.dexaZeroFat
     = Engine.composition Samples.known
  /\ Engine.composition Samples.dexaZeroFat <> (Some 0, Some 65).
Proof.
  repeat split; try reflexivity.
  intro H. vm_compute in H.
  apply (f_equal (fun c => match fst c with
                           | Some f => f =? 0
                           | None => false
                           end)) in H.
  vm_compute in H. discriminate H.
Qed.

(** C3, amended.  If DEXA is enabled and both DEXA masses are present and
    are non-zero numbers, they are used directly.  If DEXA is disabled or
    one of its masses is absent, and the mode is [known] with a body-fat
    percentage present, the masses are derived from the percentage.  If the
    mode is [unknown] or the percentage is absent, each mass is the one
    DEXA supplied when DEXA is enabled, and unresolved when it is not. *)
Theorem C3_composition_resolution :
  forall input : Types.ProfileInput,
    (forall fat lean : float,
        Types.enabled (Types.dexa input) = true ->
        Types.fatMassKg (Types.dexa input) = Some fat ->
        Types.leanMassKg (Types.dexa input) = Some lean ->
        JS.truthyNum fat = true -> JS.truthyNum lean = true ->
        Engine.fatMassKg input = Some fat
        /\ Engine.leanMassKg input = Some lean)
    /\ (forall percent : float,
          Types.enabled (Types.dexa input) = false
          \/ Types.fatMassKg (Types.dexa input) = None
          \/ Types.leanMassKg (Types.dexa input) = None ->
          Types.bodyFatMode input = Types.known ->
          Types.bodyFatPercent input = Some percent ->
          Engine.fatMassKg input
          = Some (Engine.weightKg input * (percent / 100))
          /\ Engine.leanMassKg input
             = Some (Engine.weightKg input
                     - Engine.weightKg input * (percent / 100)))
    /\ (Types.bodyFatMode input = Types.unknown
        \/ Types.bodyFatPercent input = None ->
        Engine.fatMassKg input
        = (if Types.enabled (Types.dexa input)
           then Types.fatMassKg (Types.dexa input) else None)
        /\ Engine.leanMassKg input
           = (if Types.enabled (Types.dexa input)
              then Types.leanMassKg (Types.dexa input) else None)).
Proof.
  intro input.
  unfold Engine.fatMassKg, Engine.leanMassKg, Engine.composition,
    Engine.dexaMasses.
  split; [|split].
  - intros fat lean Hen Hfat Hlean Htf Htl.
    rewrite Hen, Hfat, Hlean. simpl. rewrite Htf, Htl. simpl.
    split; reflexivity.
  - intros percent Hdexa Hmode Hbf. rewrite Hmode, Hbf.
    destruct Hdexa as [Hen | [Hfat | Hlean]].
    + rewrite Hen. simpl. split; reflexivity.
    + rewrite Hfat. destruct (Types.enabled (Types.dexa input)); simpl;
        split; reflexivity.
    + rewrite Hlean.
      destruct (Types.enabled (Types.dexa input)); simpl;
        [rewrite orb_true_r|]; simpl; split; reflexivity.
  - intros [Hmode | Hbf].
    + rewrite Hmode. simpl Types.isKnown.
      destruct (Types.enabled (Types.dexa input));
        rewrite andb_false_r; simpl; split; reflexivity.
    + rewrite Hbf. simpl JS.notNull.
      destruct (Types.enabled (Types.dexa input));
        rewrite andb_false_r; simpl; split; reflexivity.
Qed.

Lemma C3_composition_resolution_witness :
  (Engine.fatMassKg Samples.dexaBoth = Some 16
   /\ Engine.leanMassKg Samples.dexaBoth = Some 65)
  /\ (Engine.fatMassKg Samples.known
      = Some (Engine.weightKg Samples.known * (20 / 100))
      /\ Engine.leanMassKg Samples.known
         = Some (Engine.weightKg Samples.known
                 - Engine.weightKg Samples.known * (20 / 100)))
  /\ (Engine.fatMassKg Samples.dexaLeanOnly = None
      /\ Engine.leanMassKg Samples.dexaLeanOnly = Some 65).
Proof.
  split; [|split].
  - apply (proj1 (C3_composition_resolution Samples.dexaBoth));
      reflexivity.
  - apply (proj1 (proj2 (C3_composition_resolution Samples.known)) 20);
      [left|..]; reflexivity.
  - apply (proj2 (proj2 (C3_composition_resolution Samples.dexaLeanOnly))).
    left. reflexivity.
Defined.

(* ================================================================== *)
(** ** Presence of the BMR methods *)

(** What the assembler does with an optional method value: it is present
    in the output exactly when it was computed and is neither zero nor
    [NaN]. *)
Lemma roundIfTruthy_present (x : option float) :
  Engine.roundIfTruthy x <> None
  <-> exists v : float, x = Some v /\ JS.truthyNum v = true.
Proof.
  unfold Engine.roundIfTruthy. destruct x as [v|]; simpl.
  - destruct (JS.truthyNum v) eqn:Hv; split.
    + intros _. exists v. split; [reflexivity | exact Hv].
    + intros _. discriminate.
    + intro H. exfalso. apply H. reflexivity.
    + intros [w [Hw Ht]]. injection Hw as Hw. subst w.
      rewrite Hv in Ht. discriminate Ht.
  - split.
    + intro H. exfalso. apply H. reflexivity.
    + intros [w [Hw _]]. discriminate Hw.
Qed.

(** The two population formulas are always present, and the three
    composition formulas are computed exactly when their masses are
    resolved. *)
Lemma methods_computed (input : Types.ProfileInput) :
  (exists r : Out.Results,
      Engine.calculateAll input = JS.Normal r
      /\ Out.mifflin (Out.methods (Out.bmr r)) <> None
      /\ Out.revisedHarrisBenedict (Out.methods (Out.bmr r)) <> None)
  /\ (Engine.katchMcArdle input <> None <-> Engine.leanMassKg input <> None)
  /\ (Engine.nelson input <> None
      <-> Engine.fatMassKg input <> None /\ Engine.leanMassKg input <> None)
  /\ (Engine.muller input <> None
      <-> Engine.fatMassKg input <> None /\ Engine.leanMassKg input <> None).
Proof.
  split.
  - exists (Spec.resultOf input). split; [apply calculateAll_returns|].
    split; discriminate.
  - unfold Engine.katchMcArdle, Engine.nelson, Engine.muller.
    destruct (Engine.fatMassKg input), (Engine.leanMassKg input);
      repeat split; try discriminate; try tauto;
      intros H; try (destruct H as [H1 H2]); congruence.
Qed.

(** C4, on the profile where it fails.  The schema accepts DEXA masses of
    -25.8 kg of fat and 4.04 kg of lean mass; both are resolved, the Nelson
    estimate is computed and is exactly zero, and the output has no Nelson
    value, while Katch-McArdle and Muller, computed from the same masses,
    are present. *)
Theorem C4_zero_nelson_is_absent :
  Schema.success Samples.zeroNelsonForm = true
  /\ Engine.fatMassKg Samples.zeroNelson = Some (-25.8)
  /\ Engine.leanMassKg Samples.zeroNelson = Some 4.04
  /\ Engine.nelson Samples.zeroNelson = Some 0
  /\ exists r : Out.Results,
       Engine.calculateAll Samples.zeroNelson = JS.Normal r
       /\ Out.nelson (Out.methods (Out.bmr r)) = None
       /\ Out.katchMcArdle (Out.methods (Out.bmr r)) = Some 457
       /\ Out.muller (Out.methods (Out.bmr r)) = Some 5.
Proof.
  repeat split; try reflexivity.
  eexists. split; [apply calculateAll_returns|].
  repeat split; vm_compute; reflexivity.
Qed.

(* ================================================================== *)
(** ** Missing required scalars *)

(** C7, as stated, fails.  Without a weight (lb, under US units) the
    engine throws nothing: it returns a result whose Mifflin-St Jeor value,
    recommended BMR, TDEE and maintenance protein are all [NaN]. *)
Lemma C7_missing_weight_returns_NaN :
  Spec.requiredMissing Samples.noWeight = true
  /\ (forall message : string,
         Engine.calculateAll Samples.noWeight <> JS.Throw message)
  /\ exists r : Out.Results,
       Engine.calculateAll Samples.noWeight = JS.Normal r
       /\ Out.mifflin (Out.methods (Out.bmr r)) = Some nan
       /\ Out.recommendedBmr (Out.bmr r) = nan
       /\ Out.tdee r = nan
       /\ Out.proteinG (Out.maintenance r) = nan.
Proof.
  split; [reflexivity|]. split.
  - intros message H. rewrite calculateAll_returns in H. discriminate H.
  - eexists. split; [apply calculateAll_returns|].
    repeat split; vm_compute; reflexivity.
Qed.

Lemma weightKg_missing (input : Types.ProfileInput) :
  Spec.activeWeight input = None -> Engine.weightKg input = nan.
Proof.
  unfold Spec.activeWeight, Engine.weightKg, Engine.lbToKg.
  destruct (Types.unitSystem input); intros ->; reflexivity.
Qed.

Lemma heightCm_missing (input : Types.ProfileInput) :
  Spec.activeHeight input = None -> Engine.heightCm input = nan.
Proof.
  unfold Spec.activeHeight, Engine.heightCm, Engine.inToCm.
  destruct (Types.unitSystem input); intros ->; reflexivity.
Qed.

Lemma activityMultiplier_missing (input : Types.ProfileInput) :
  Spec.selectedActivity input = None -> Engine.activityMultiplier input = nan.
Proof.
  unfold Spec.selectedActivity, Engine.activityMultiplier.
  destruct (Types.useCustom (Types.activity input)); intros ->; reflexivity.
Qed.

(** C7, amended.  The engine never throws.  When the active unit system's
    weight is absent, the result's Mifflin-St Jeor value and the protein
    grams of the maintenance goal are [NaN]; when its height is absent, the
    Mifflin-St Jeor value is [NaN]; when the activity source selected by
    [useCustom] is absent, the TDEE and the calories of the maintenance goal
    are [NaN]. *)
Theorem C7_missing_scalar_yields_NaN :
  forall input : Types.ProfileInput,
  exists r : Out.Results,
    Engine.calculateAll input = JS.Normal r
    /\ (Spec.activeWeight input = None ->
        Out.mifflin (Out.methods (Out.bmr r)) = Some nan
        /\ Out.proteinG (Out.maintenance r) = nan)
    /\ (Spec.activeHeight input = None ->
        Out.mifflin (Out.methods (Out.bmr r)) = Some nan)
    /\ (Spec.selectedActivity input = None ->
        Out.tdee r = nan /\ Out.calories (Out.maintenance r) = nan).
Proof.
  intro input. exists (Spec.resultOf input).
  split; [apply calculateAll_returns|].
  split; [|split].
  - intro H. apply weightKg_missing in H. simpl.
    unfold Engine.mifflin, Engine.weightLb. rewrite H.
    rewrite mul_nan_r, add_nan_l, sub_nan_l, add_nan_l, div_nan_l, mul_nan_l.
    split; reflexivity.
  - intro H. apply heightCm_missing in H. simpl.
    unfold Engine.mifflin. rewrite H.
    rewrite mul_nan_r, add_nan_r, sub_nan_l, add_nan_l. reflexivity.
  - intro H. apply activityMultiplier_missing in H. simpl.
    unfold Engine.tdee. rewrite H, mul_nan_r. split; reflexivity.
Qed.

Lemma C7_missing_scalar_yields_NaN_witness :
  Spec.activeWeight Samples.noWeight = None
  /\ exists r : Out.Results,
       Engine.calculateAll Samples.noWeight = JS.Normal r
       /\ Out.mifflin (Out.methods (Out.bmr r)) = Some nan
       /\ Out.proteinG (Out.maintenance r) = nan.
Proof.
  split; [reflexivity|].
  destruct (C7_missing_scalar_yields_NaN Samples.noWeight)
    as [r [Hr [Hweight _]]].
  exists r. split; [exact Hr|].
  apply Hweight. reflexivity.
Defined.

(* ================================================================== *)
(** ** The placeholder engine *)

(** C8. The [calculateAll] of [src/lib/calcs.ts] throws for every profile
    and never returns a result, so the page, which imports that one and
    maps a throw to [null], never has results; and since the full engine
    returns for every profile, the two differ at every profile. *)
Theorem C8_placeholder_always_throws :
  (forall input : Types.ProfileInput,
      LibCalcs.calculateAll input = JS.Throw "Not implemented yet")
  /\ (forall (input : Types.ProfileInput) (r : Out.Results),
         LibCalcs.calculateAll input <> JS.Normal r)
  /\ (forall input : option Types.ProfileInput, Page.results input = None)
  /\ (forall input : Types.ProfileInput,
         LibCalcs.calculateAll input <> Engine.calculateAll input)
  /\ ~ (forall input : Types.ProfileInput,
           LibCalcs.calculateAll input = Engine.calculateAll input).
Proof.
  split; [reflexivity|].
  split; [intros input r H; discriminate H|].
  split; [intros [input|]; reflexivity|].
  assert (Hne : forall input : Types.ProfileInput,
             LibCalcs.calculateAll input <> Engine.calculateAll input).
  { intros input H. rewrite calculateAll_returns in H. discriminate H. }
  split; [exact Hne|].
  intro H. exact (Hne Samples.plain (H Samples.plain)).
Qed.

(* ================================================================== *)
(** ** TDEE *)

(** C9. When the activity source selected by [useCustom] (the custom
    multiplier when it is true, the preset otherwise) holds [m], the [tdee]
    of the result is [round (recommendedBmr * m)] on the unrounded
    recommended BMR, the one whose rounding is the result's
    [recommendedBmr]. *)
Theorem C9_tdee_from_unrounded_bmr :
  forall (input : Types.ProfileInput) (m : float),
    (if Types.useCustom (Types.activity input)
     then Types.customMultiplier (Types.activity input)
     else Types.preset (Types.activity input)) = Some m ->
    exists r : Out.Results,
      Engine.calculateAll input = JS.Normal r
      /\ Out.tdee r = Engine.round (Engine.recommendedBmr input * m)
      /\ Out.recommendedBmr (Out.bmr r)
         = Engine.round (Engine.recommendedBmr input).
Proof.
  intros input m Hm. exists (Spec.resultOf input).
  split; [apply calculateAll_returns|].
  split; [|reflexivity].
  simpl. unfold Engine.tdee, Engine.activityMultiplier.
  destruct (Types.useCustom (Types.activity input)); rewrite Hm; reflexivity.
Qed.

(** On the second example the unrounded BMR matters: the TDEE is 2760,
    where the rounded BMR, 1781, times 1.55 would round to 2761. *)
Lemma C9_tdee_from_unrounded_bmr_witness :
  exists r : Out.Results,
    Engine.calculateAll Samples.known = JS.Normal r
    /\ Out.tdee r = 2760
    /\ Out.recommendedBmr (Out.bmr r) = 1781
    /\ Engine.round (1781 * 1.55) = 2761.
Proof.
  destruct (C9_tdee_from_unrounded_bmr Samples.known 1.55 eq_refl)
    as [r [Hr [Htdee Hbmr]]].
  exists r. split; [exact Hr|].
  rewrite Htdee, Hbmr. repeat split; vm_compute; reflexivity.
Defined.

(* ================================================================== *)
(** ** Unit conversion *)


(** On every weight the form can produce up to 1000 lb, the round trip
    through kilograms is within [lb * 2^-52] of the input: one unit in the
    last place or so, enough to cross a rounding boundary and no more. *)
Lemma roundTripLb_tolerance_on_formWeights :
  forallb (fun lb => abs (Spec.roundTripLb lb - lb) <=? lb * 0x1p-52)
    Spec.formWeights = true.
Proof. vm_compute. reflexivity. Qed.




(* ================================================================== *)
(** ** Comparisons of doubles *)

Lemma SFcompare_antisym (x y : spec_float) :
  SFcompare y x = option_map CompOpp (SFcompare x y).
Proof.
  destruct x as [sx|sx| |sx mx ex], y as [sy|sy| |sy my ey]; simpl;
    try reflexivity;
    try (destruct sx; reflexivity);
    try (destruct sy; reflexivity);
    try (destruct sx, sy; reflexivity).
  destruct sx, sy; try reflexivity;
    rewrite (Z.compare_antisym ex ey);
    destruct (ex ?= ey)%Z; simpl; try reflexivity;
    rewrite (Pos.compare_cont_antisym mx my Eq); simpl;
    try rewrite CompOpp_involutive; reflexivity.
Qed.

Lemma SFcompare_refl (x : spec_float) :
  x <> S754_nan -> SFcompare x x = Some Eq.
Proof.
  destruct x as [s|s| |s m e]; simpl; intro H.
  - reflexivity.
  - destruct s; reflexivity.
  - exfalso. apply H. reflexivity.
  - rewrite Z.compare_refl, Pos.compare_cont_refl. destruct s; reflexivity.
Qed.

Lemma is_nan_false (x : float) :
  is_nan x = false <-> Prim2SF x <> S754_nan.
Proof.
  unfold is_nan. rewrite FloatAxioms.eqb_spec. unfold SFeqb. split.
  - intros H Hx. rewrite Hx in H. discriminate H.
  - intro H. rewrite (SFcompare_refl _ H). reflexivity.
Qed.

Lemma compare_some (x y : float) :
  is_nan x = false -> is_nan y = false ->
  exists c : comparison, SFcompare (Prim2SF x) (Prim2SF y) = Some c.
Proof.
  intros Hx Hy. apply is_nan_false in Hx. apply is_nan_false in Hy.
  destruct (Prim2SF x), (Prim2SF y); simpl; try (eexists; reflexivity);
    exfalso; auto.
Qed.

Lemma leb_refl (x : float) : is_nan x = false -> (x <=? x) = true.
Proof.
  intro H. apply is_nan_false in H.
  rewrite FloatAxioms.leb_spec. unfold SFleb.
  rewrite (SFcompare_refl _ H). reflexivity.
Qed.

Lemma ltb_leb (x y : float) : (x <? y) = true -> (x <=? y) = true.
Proof.
  rewrite FloatAxioms.ltb_spec, FloatAxioms.leb_spec. unfold SFltb, SFleb.
  destruct (SFcompare (Prim2SF x) (Prim2SF y)) as [[| |]|];
    intro H; try discriminate H; reflexivity.
Qed.

(** Among numbers, [x < y] fails exactly when [y <= x]. *)
Lemma ltb_false_leb (x y : float) :
  is_nan x = false -> is_nan y = false ->
  (x <? y) = false -> (y <=? x) = true.
Proof.
  intros Hx Hy. destruct (compare_some x y Hx Hy) as [c Hc].
  rewrite FloatAxioms.ltb_spec, FloatAxioms.leb_spec. unfold SFltb, SFleb.
  rewrite (SFcompare_antisym (Prim2SF x) (Prim2SF y)), Hc.
  destruct c; simpl; intro H; try discriminate H; reflexivity.
Qed.

Lemma leb_true_ltb_false (x y : float) :
  (x <=? y) = true -> (y <? x) = false.
Proof.
  rewrite FloatAxioms.ltb_spec, FloatAxioms.leb_spec. unfold SFltb, SFleb.
  rewrite (SFcompare_antisym (Prim2SF x) (Prim2SF y)).
  destruct (SFcompare (Prim2SF x) (Prim2SF y)) as [[| |]|]; simpl;
    intro H; try discriminate H; reflexivity.
Qed.

(** A comparison that holds has numbers on both sides. *)
Lemma leb_true_not_nan (x y : float) :
  (x <=? y) = true -> is_nan x = false /\ is_nan y = false.
Proof.
  rewrite FloatAxioms.leb_spec. unfold SFleb. intro H.
  split; apply is_nan_false; intro Hn; rewrite Hn in H;
    [|destruct (Prim2SF x)]; discriminate H.
Qed.

Lemma ltb_true_not_nan (x y : float) :
  (x <? y) = true -> is_nan x = false /\ is_nan y = false.
Proof.
  intro H. apply leb_true_not_nan. apply ltb_leb. exact H.
Qed.

(* ================================================================== *)
(** ** The schema's helpers *)

Lemma Math_min_spec (a b : float) :
  is_nan a = false -> is_nan b = false ->
  (JS.Math_min a b = a \/ JS.Math_min a b = b)
  /\ (JS.Math_min a b <=? a) = true
  /\ (JS.Math_min a b <=? b) = true.
Proof.
  intros Ha Hb. unfold JS.Math_min. rewrite Ha, Hb. simpl.
  destruct (a <? b) eqn:Hab.
  - split; [left; reflexivity|]. split; [apply leb_refl, Ha|].
    apply ltb_leb, Hab.
  - destruct (b <? a) eqn:Hba.
    + split; [right; reflexivity|]. split; [apply ltb_leb, Hba|].
      apply leb_refl, Hb.
    + destruct (JS.isNegZero a).
      * split; [left; reflexivity|]. split; [apply leb_refl, Ha|].
        apply ltb_false_leb; assumption.
      * split; [right; reflexivity|].
        split; [apply ltb_false_leb; assumption|]. apply leb_refl, Hb.
Qed.

Lemma Math_max_spec (a b : float) :
  is_nan a = false -> is_nan b = false ->
  (JS.Math_max a b = a \/ JS.Math_max a b = b)
  /\ (a <=? JS.Math_max a b) = true
  /\ (b <=? JS.Math_max a b) = true.
Proof.
  intros Ha Hb. unfold JS.Math_max. rewrite Ha, Hb. simpl.
  destruct (b <? a) eqn:Hba.
  - split; [left; reflexivity|]. split; [apply leb_refl, Ha|].
    apply ltb_leb, Hba.
  - destruct (a <? b) eqn:Hab.
    + split; [right; reflexivity|]. split; [apply ltb_leb, Hab|].
      apply leb_refl, Hb.
    + destruct (JS.isNegZero a).
      * split; [right; reflexivity|].
        split; [apply ltb_false_leb; assumption|]. apply leb_refl, Hb.
      * split; [left; reflexivity|]. split; [apply leb_refl, Ha|].
        apply ltb_false_leb; assumption.
Qed.

Lemma clamp_spec (n min max : float) :
  (min <=? max) = true ->
  (is_nan n = false ->
   (min <=? Schema.clamp n min max) = true
   /\ (Schema.clamp n min max <=? max) = true
   /\ (Schema.clamp n min max = n \/ Schema.clamp n min max = min
       \/ Schema.clamp n min max = max))
  /\ Schema.clamp nan min max = nan.
Proof.
  intros Hle.
  destruct (leb_true_not_nan _ _ Hle) as [Hmin Hmax].
  split.
  - intro Hn. unfold Schema.clamp.
    destruct (Math_min_spec max n Hmax Hn) as [Hm [Hm1 Hm2]].
    assert (Hmn : is_nan (JS.Math_min max n) = false).
    { destruct Hm as [-> | ->]; assumption. }
    destruct (Math_max_spec min (JS.Math_min max n) Hmin Hmn)
      as [Hr [Hr1 Hr2]].
    split; [exact Hr1|]. split.
    + destruct Hr as [-> | ->]; assumption.
    + destruct Hr as [-> | ->]; [right; left; reflexivity|].
      destruct Hm as [-> | ->]; [right; right|left]; reflexivity.
  - unfold Schema.clamp, JS.Math_min, JS.Math_max.
    change (is_nan nan) with true. rewrite orb_true_r. simpl is_nan.
    rewrite orb_true_r. reflexivity.
Qed.

(** X4. [clamp] keeps a number within its bounds: for [min <= max] and
    [n] not [NaN], [min <= clamp n min max <= max], and the result is one
    of [n], [min] and [max]. *)
Theorem clamp_within_bounds :
  forall n min max : float,
    (min <=? max) = true ->
    is_nan n = false ->
    (min <=? Schema.clamp n min max) = true
    /\ (Schema.clamp n min max <=? max) = true
    /\ (Schema.clamp n min max = n \/ Schema.clamp n min max = min
        \/ Schema.clamp n min max = max).
Proof.
  intros n min max Hle Hn. exact (proj1 (clamp_spec n min max Hle) Hn).
Qed.

Lemma clamp_within_bounds_witness :
  (0 <=? Schema.clamp 95 0 80) = true
  /\ (Schema.clamp 95 0 80 <=? 80) = true
  /\ (Schema.clamp 95 0 80 = 95 \/ Schema.clamp 95 0 80 = 0
      \/ Schema.clamp 95 0 80 = 80).
Proof.
  exact (clamp_within_bounds 95 0 80 eq_refl eq_refl).
Defined.

(** Rounding a non-negative mantissa never gives [NaN]. *)
Lemma shr_1_nonneg (mrs : shr_record) :
  (0 <= shr_m mrs)%Z -> (0 <= shr_m (shr_1 mrs))%Z.
Proof.
  destruct mrs as [m r s]. simpl.
  destruct m as [|p|p]; simpl; intro H; try lia.
  destruct p; simpl; lia.
Qed.

Lemma iter_pos_shr_1_nonneg (p : positive) (mrs : shr_record) :
  (0 <= shr_m mrs)%Z -> (0 <= shr_m (iter_pos shr_1 p mrs))%Z.
Proof.
  revert mrs. induction p as [p IH|p IH|]; intros mrs H; simpl.
  - apply IH, IH, shr_1_nonneg, H.
  - apply IH, IH, H.
  - apply shr_1_nonneg, H.
Qed.

Lemma shr_fexp_nonneg (prec emax m e : Z) (l : location) :
  (0 <= m)%Z -> (0 <= shr_m (fst (shr_fexp prec emax m e l)))%Z.
Proof.
  intro H. unfold shr_fexp, shr.
  assert (H0 : (0 <= shr_m (shr_record_of_loc m l))%Z).
  { destruct l as [|[| |]]; exact H. }
  destruct (fexp prec emax (Zdigits2 m + e) - e)%Z; simpl; try exact H0.
  apply iter_pos_shr_1_nonneg, H0.
Qed.

Lemma round_nearest_even_nonneg (m : Z) (l : location) :
  (0 <= m)%Z -> (0 <= round_nearest_even m l)%Z.
Proof.
  intro H. destruct l as [|[| |]]; simpl; try exact H; try lia.
  destruct (Z.even m); lia.
Qed.

Lemma binary_round_aux_not_nan (prec emax : Z) (sx : bool) (mx ex : Z)
  (lx : location) :
  (0 <= mx)%Z -> binary_round_aux prec emax sx mx ex lx <> S754_nan.
Proof.
  intro H. unfold binary_round_aux.
  pose proof (shr_fexp_nonneg prec emax mx ex lx H) as H1.
  destruct (shr_fexp prec emax mx ex lx) as [mrs' e']. simpl in H1.
  pose proof (shr_fexp_nonneg prec emax
                (round_nearest_even (shr_m mrs') (loc_of_shr_record mrs'))
                e' loc_Exact
                (round_nearest_even_nonneg _ _ H1)) as H2.
  destruct (shr_fexp prec emax
              (round_nearest_even (shr_m mrs') (loc_of_shr_record mrs'))
              e' loc_Exact) as [mrs'' e''].
  simpl in H2.
  destruct (shr_m mrs'') as [|m|m]; try discriminate.
  - destruct (e'' <=? emax - prec)%Z; discriminate.
  - lia.
Qed.

(** A product of two finite doubles is never [NaN]. *)
Lemma mul_finite_not_nan (x y : float) :
  JS.isFinite x = true -> JS.isFinite y = true -> is_nan (x * y) = false.
Proof.
  unfold JS.isFinite. intros Hx Hy.
  apply negb_true_iff, orb_false_iff in Hx. destruct Hx as [Hxn Hxi].
  apply negb_true_iff, orb_false_iff in Hy. destruct Hy as [Hyn Hyi].
  apply is_nan_false. rewrite FloatAxioms.mul_spec.
  unfold is_infinity in Hxi, Hyi.
  rewrite FloatAxioms.eqb_spec, FloatAxioms.abs_spec in Hxi, Hyi.
  apply is_nan_false in Hxn. apply is_nan_false in Hyn.
  destruct (Prim2SF x) as [sx|sx| |sx mx ex];
    try (exfalso; apply Hxn; reflexivity);
    try (vm_compute in Hxi; discriminate Hxi);
    destruct (Prim2SF y) as [sy|sy| |sy my ey];
    try (exfalso; apply Hyn; reflexivity);
    try (vm_compute in Hyi; discriminate Hyi);
    try discriminate.
  apply binary_round_aux_not_nan. lia.
Qed.

(* ================================================================== *)
(** ** What the schema guarantees *)

Lemma leb_false_ltb (x y : float) :
  is_nan x = false -> is_nan y = false ->
  (x <=? y) = false -> (y <? x) = true.
Proof.
  intros Hx Hy. destruct (compare_some x y Hx Hy) as [c Hc].
  rewrite FloatAxioms.ltb_spec, FloatAxioms.leb_spec. unfold SFltb, SFleb.
  rewrite (SFcompare_antisym (Prim2SF x) (Prim2SF y)), Hc.
  destruct c; simpl; intro H; try discriminate H; reflexivity.
Qed.

Lemma issueIf_nil (c : bool) (path : string) :
  Schema.issueIf c path = [] -> c = false.
Proof. destruct c; [discriminate|reflexivity]. Qed.

(** A present, truthy and not non-positive number: present and above 0. *)
Lemma missingOrNotPositive_false (x : option float) :
  Schema.missingOrNotPositive x = false ->
  exists v : float, x = Some v /\ (0 <? v) = true.
Proof.
  unfold Schema.missingOrNotPositive. intro H.
  apply orb_false_iff in H. destruct H as [Ht Hle].
  apply negb_false_iff in Ht.
  destruct x as [v|]; [|discriminate Ht].
  exists v. split; [reflexivity|]. simpl in Ht, Hle.
  unfold JS.truthyNum in Ht.
  apply negb_true_iff, orb_false_iff in Ht. destruct Ht as [_ Hn].
  apply leb_false_ltb; [exact Hn|reflexivity|exact Hle].
Qed.

Lemma missingOrNotFinite_false (x : option float) :
  Schema.missingOrNotFinite x = false ->
  exists v : float, x = Some v /\ JS.isFinite v = true.
Proof.
  unfold Schema.missingOrNotFinite. intro H.
  apply orb_false_iff in H. destruct H as [Hp Hf].
  destruct x as [v|]; [|discriminate Hp].
  exists v. split; [reflexivity|]. apply negb_false_iff in Hf. exact Hf.
Qed.

(** The five groups of checks of [superRefine], for an accepted form. *)
Lemma success_inv (v : Schema.ProfileFormValues) :
  Schema.success v = true ->
  Schema.fieldsOk v = true
  /\ match Schema.unitSystem v with
     | Types.us =>
         Schema.missingOrNotPositive (Schema.heightInches v) = false
         /\ Schema.missingOrNotPositive (Schema.weightLb v) = false
     | Types.metric =>
         Schema.missingOrNotPositive (Schema.heightCm v) = false
         /\ Schema.missingOrNotPositive (Schema.weightKg v) = false
     end
  /\ (Schema.bodyFatMode v = Types.known ->
      Schema.missingOrNotFinite (Schema.bodyFatPercent v) = false)
  /\ (if Schema.activityUseCustom v
      then Schema.missingOrNotFinite (Schema.activityCustom v) = false
      else Schema.missingOrNotFinite (Schema.activityPreset v) = false)
  /\ (Schema.dexaEnabled v = true ->
      Schema.hasMass (Schema.dexaFatMassKg v) = true
      \/ Schema.hasMass (Schema.dexaLeanMassKg v) = true)
  /\ JS.isFinite (Schema.bulkProteinGPerLb v) = true
  /\ (Schema.bulkProteinGPerLb v <? 0.7) = false
  /\ (1.0 <? Schema.bulkProteinGPerLb v) = false.
Proof.
  unfold Schema.success. intro H.
  apply andb_true_iff in H. destruct H as [Hf Hs].
  split; [exact Hf|].
  destruct (Schema.superRefine v) eqn:Hr; [clear Hs|discriminate Hs].
  unfold Schema.superRefine in Hr.
  apply app_eq_nil in Hr. destruct Hr as [Hunits Hr].
  apply app_eq_nil in Hr. destruct Hr as [Hbf Hr].
  apply app_eq_nil in Hr. destruct Hr as [Hact Hr].
  apply app_eq_nil in Hr. destruct Hr as [Hdexa Hbulk].
  split.
  { destruct (Schema.unitSystem v);
      apply app_eq_nil in Hunits; destruct Hunits as [Hh Hw];
      split; eapply issueIf_nil; eassumption. }
  split.
  { intro Hk. rewrite Hk in Hbf. eapply issueIf_nil; eassumption. }
  split.
  { destruct (Schema.activityUseCustom v); eapply issueIf_nil; eassumption. }
  split.
  { intro He. rewrite He in Hdexa. apply issueIf_nil in Hdexa.
    destruct (Schema.hasMass (Schema.dexaFatMassKg v)); [left; reflexivity|].
    destruct (Schema.hasMass (Schema.dexaLeanMassKg v));
      [right; reflexivity|discriminate Hdexa]. }
  destruct (JS.isFinite (Schema.bulkProteinGPerLb v));
    [|discriminate Hbulk].
  split; [reflexivity|].
  apply issueIf_nil in Hbulk. apply orb_false_iff in Hbulk. exact Hbulk.
Qed.

(** X1. A form the schema accepts gives the engine what it reads without
    checking: the weight and the height of the active unit system are
    present and above 0, the activity source selected by [useCustom] is
    present and finite, and the bulk protein target is a number from 0.7 to
    1.0; so no required scalar is missing. *)
Theorem accepted_form_meets_engine_preconditions :
  forall v : Schema.ProfileFormValues,
    Schema.success v = true ->
    (exists w : float,
        Spec.activeWeight (Schema.toProfileInput v) = Some w
        /\ (0 <? w) = true)
    /\ (exists h : float,
          Spec.activeHeight (Schema.toProfileInput v) = Some h
          /\ (0 <? h) = true)
    /\ (exists a : float,
          Spec.selectedActivity (Schema.toProfileInput v) = Some a
          /\ JS.isFinite a = true)
    /\ (0.7 <=? Types.bulkProteinGPerLb (Schema.toProfileInput v)) = true
    /\ (Types.bulkProteinGPerLb (Schema.toProfileInput v) <=? 1.0) = true
    /\ Spec.requiredMissing (Schema.toProfileInput v) = false.
Proof.
  intros v Hv.
  destruct (success_inv v Hv)
    as [_ [Hunits [_ [Hact [_ [Hbf [Hb1 Hb2]]]]]]].
  assert (Hw : exists w : float,
             Spec.activeWeight (Schema.toProfileInput v) = Some w
             /\ (0 <? w) = true).
  { unfold Spec.activeWeight, Schema.toProfileInput. simpl.
    destruct (Schema.unitSystem v); destruct Hunits as [_ Hw];
      exact (missingOrNotPositive_false _ Hw). }
  assert (Hh : exists h : float,
             Spec.activeHeight (Schema.toProfileInput v) = Some h
             /\ (0 <? h) = true).
  { unfold Spec.activeHeight, Schema.toProfileInput. simpl.
    destruct (Schema.unitSystem v); destruct Hunits as [Hh _];
      exact (missingOrNotPositive_false _ Hh). }
  assert (Ha : exists a : float,
             Spec.selectedActivity (Schema.toProfileInput v) = Some a
             /\ JS.isFinite a = true).
  { unfold Spec.selectedActivity, Schema.toProfileInput. simpl.
    destruct (Schema.activityUseCustom v);
      exact (missingOrNotFinite_false _ Hact). }
  assert (Hbn : is_nan (Schema.bulkProteinGPerLb v) = false).
  { unfold JS.isFinite in Hbf.
    apply negb_true_iff, orb_false_iff in Hbf. exact (proj1 Hbf). }
  split; [exact Hw|]. split; [exact Hh|]. split; [exact Ha|].
  split; [apply ltb_false_leb; [exact Hbn|reflexivity|exact Hb1]|].
  split; [apply ltb_false_leb; [reflexivity|exact Hbn|exact Hb2]|].
  unfold Spec.requiredMissing.
  destruct Hw as [w [-> _]], Hh as [h [-> _]], Ha as [a [-> _]].
  reflexivity.
Qed.

Lemma accepted_form_meets_engine_preconditions_witness :
  (exists w : float,
      Spec.activeWeight Samples.plain = Some w /\ (0 <? w) = true)
  /\ Spec.requiredMissing Samples.plain = false.
Proof.
  destruct (accepted_form_meets_engine_preconditions Samples.plainForm
              eq_refl) as [Hw [_ [_ [_ [_ Hm]]]]].
  split; [exact Hw | exact Hm].
Defined.

(** X2. For a form the schema accepts, each pair holds exactly one value:
    the height and the weight of the active unit system and the activity
    source selected by [useCustom] are populated, and the other member of
    each pair is absent. *)
Theorem accepted_form_populates_exactly_one :
  forall v : Schema.ProfileFormValues,
    Schema.success v = true ->
    match Types.unitSystem (Schema.toProfileInput v) with
    | Types.us =>
        Types.inches (Types.height (Schema.toProfileInput v)) <> None
        /\ Types.cm (Types.height (Schema.toProfileInput v)) = None
        /\ Types.lb (Types.weight (Schema.toProfileInput v)) <> None
        /\ Types.kg (Types.weight (Schema.toProfileInput v)) = None
    | Types.metric =>
        Types.cm (Types.height (Schema.toProfileInput v)) <> None
        /\ Types.inches (Types.height (Schema.toProfileInput v)) = None
        /\ Types.kg (Types.weight (Schema.toProfileInput v)) <> None
        /\ Types.lb (Types.weight (Schema.toProfileInput v)) = None
    end
    /\ (if Types.useCustom (Types.activity (Schema.toProfileInput v))
        then
          Types.customMultiplier (Types.activity (Schema.toProfileInput v))
          <> None
          /\ Types.preset (Types.activity (Schema.toProfileInput v)) = None
        else
          Types.preset (Types.activity (Schema.toProfileInput v)) <> None
          /\ Types.customMultiplier
               (Types.activity (Schema.toProfileInput v)) = None).
Proof.
  intros v Hv.
  destruct (success_inv v Hv) as [_ [Hunits [_ [Hact _]]]].
  unfold Schema.toProfileInput. simpl. split.
  - destruct (Schema.unitSystem v); destruct Hunits as [Hh Hw];
      apply missingOrNotPositive_false in Hh;
      apply missingOrNotPositive_false in Hw;
      destruct Hh as [h [-> _]], Hw as [w [-> _]];
      repeat split; discriminate.
  - destruct (Schema.activityUseCustom v);
      apply missingOrNotFinite_false in Hact;
      destruct Hact as [a [-> _]]; split; try reflexivity; discriminate.
Qed.

Lemma accepted_form_populates_exactly_one_witness :
  Types.lb (Types.weight Samples.plain) <> None
  /\ Types.kg (Types.weight Samples.plain) = None.
Proof.
  destruct (accepted_form_populates_exactly_one Samples.plainForm eq_refl)
    as [[_ [_ [Hlb Hkg]]] _].
  split; [exact Hlb | exact Hkg].
Defined.

Lemma isFinite_not_nan (x : float) : JS.isFinite x = true -> is_nan x = false.
Proof.
  unfold JS.isFinite. intro H.
  apply negb_true_iff, orb_false_iff in H. exact (proj1 H).
Qed.

(** A finite entry stays a number through the fraction heuristic. *)
Lemma normalizeBodyFatPercent_not_nan (raw : float) :
  JS.isFinite raw = true ->
  is_nan (Schema.normalizeBodyFatPercent raw) = false.
Proof.
  intro H. unfold Schema.normalizeBodyFatPercent. rewrite H. simpl.
  destruct ((0 <? raw) && (raw <=? 1)).
  - apply mul_finite_not_nan; [exact H|reflexivity].
  - apply isFinite_not_nan, H.
Qed.

(** X3. The body-fat percentage of a profile made from an accepted form:
    present and within 0 to 80 when the mode is [known], whatever finite
    number was entered, and absent when the mode is [unknown], even if one
    was entered. *)
Theorem accepted_bodyFatPercent_within_0_80 :
  forall v : Schema.ProfileFormValues,
    Schema.success v = true ->
    match Schema.bodyFatMode v with
    | Types.known =>
        exists p : float,
          Types.bodyFatPercent (Schema.toProfileInput v) = Some p
          /\ (0 <=? p) = true /\ (p <=? 80) = true
    | Types.unknown =>
        Types.bodyFatPercent (Schema.toProfileInput v) = None
    end.
Proof.
  intros v Hv.
  destruct (success_inv v Hv) as [_ [_ [Hbf _]]].
  unfold Schema.toProfileInput. simpl.
  destruct (Schema.bodyFatMode v); [|reflexivity].
  destruct (missingOrNotFinite_false _ (Hbf eq_refl)) as [raw [-> Hraw]].
  simpl. eexists. split; [reflexivity|].
  destruct (proj1 (clamp_spec (Schema.normalizeBodyFatPercent raw) 0 80
                     eq_refl)
              (normalizeBodyFatPercent_not_nan raw Hraw))
    as [H0 [H80 _]].
  split; assumption.
Qed.

Lemma accepted_bodyFatPercent_within_0_80_witness :
  exists p : float,
    Types.bodyFatPercent Samples.known = Some p
    /\ (0 <=? p) = true /\ (p <=? 80) = true.
Proof.
  exact (accepted_bodyFatPercent_within_0_80 Samples.knownForm eq_refl).
Defined.

(* ================================================================== *)
(** ** Body composition and the recommendation *)

(** With the mode [known] and a percentage, both masses are resolved: to
    the DEXA pair, or to the pair derived from the percentage. *)
Lemma known_percent_composition (input : Types.ProfileInput)
  (percent : float) :
  Types.bodyFatMode input = Types.known ->
  Types.bodyFatPercent input = Some percent ->
  exists fat lean : float,
    Engine.composition input = (Some fat, Some lean)
    /\ ((Types.enabled (Types.dexa input) = true
         /\ Types.fatMassKg (Types.dexa input) = Some fat
         /\ Types.leanMassKg (Types.dexa input) = Some lean)
        \/ (fat = Engine.weightKg input * (percent / 100)
            /\ lean = Engine.weightKg input - fat)).
Proof.
  intros Hmode Hbf. unfold Engine.composition, Engine.dexaMasses.
  rewrite Hmode, Hbf.
  destruct (Types.enabled (Types.dexa input));
    destruct (Types.fatMassKg (Types.dexa input)) as [f|];
    destruct (Types.leanMassKg (Types.dexa input)) as [l|];
    simpl; rewrite ?orb_true_r; simpl;
    try (eexists; eexists; split; [reflexivity|right; split; reflexivity]).
  destruct (JS.truthyNum f), (JS.truthyNum l); simpl;
    try (eexists; eexists; split; [reflexivity|right; split; reflexivity]).
  exists f, l. split; [reflexivity|]. left. repeat split.
Qed.

(** X5. With the mode [known] and a body-fat percentage present, whatever
    the DEXA fields hold, both masses are resolved, the three
    composition-based formulas are all computed, and the recommended BMR is
    the rounded Katch-McArdle estimate on the resolved lean mass. *)
Theorem known_percent_recommends_katch :
  forall (input : Types.ProfileInput) (percent : float),
    Types.bodyFatMode input = Types.known ->
    Types.bodyFatPercent input = Some percent ->
    exists fat lean : float,
      Engine.fatMassKg input = Some fat
      /\ Engine.leanMassKg input = Some lean
      /\ Engine.katchMcArdle input = Some (370 + 21.6 * lean)
      /\ Engine.nelson input = Some (25.8 * lean + 4.04 * fat)
      /\ Engine.muller input = Some (13.587 * lean + 9.613 * fat + 198)
      /\ exists r : Out.Results,
           Engine.calculateAll input = JS.Normal r
           /\ Out.recommendedBmr (Out.bmr r)
              = Engine.round (370 + 21.6 * lean).
Proof.
  intros input percent Hmode Hbf.
  destruct (known_percent_composition input percent Hmode Hbf)
    as [fat [lean [Hc _]]].
  exists fat, lean.
  assert (Hfat : Engine.fatMassKg input = Some fat).
  { unfold Engine.fatMassKg. rewrite Hc. reflexivity. }
  assert (Hlean : Engine.leanMassKg input = Some lean).
  { unfold Engine.leanMassKg. rewrite Hc. reflexivity. }
  split; [exact Hfat|]. split; [exact Hlean|].
  unfold Engine.katchMcArdle, Engine.nelson, Engine.muller.
  rewrite Hfat, Hlean. repeat split.
  exists (Spec.resultOf input). split; [apply calculateAll_returns|].
  simpl. unfold Engine.recommendedBmr, Engine.katchMcArdle.
  rewrite Hmode, Hlean. reflexivity.
Qed.

Lemma known_percent_recommends_katch_witness :
  exists fat lean : float,
    Engine.fatMassKg Samples.dexaZeroFat = Some fat
    /\ Engine.leanMassKg Samples.dexaZeroFat = Some lean
    /\ exists r : Out.Results,
         Engine.calculateAll Samples.dexaZeroFat = JS.Normal r
         /\ Out.recommendedBmr (Out.bmr r)
            = Engine.round (370 + 21.6 * lean).
Proof.
  destruct (known_percent_recommends_katch Samples.dexaZeroFat 20
              eq_refl eq_refl)
    as [fat [lean [Hf [Hl [_ [_ [_ Hr]]]]]]].
  exists fat, lean. split; [exact Hf|]. split; [exact Hl | exact Hr].
Defined.

(** X6. The schema and the engine together: whenever an accepted
    form says the body-fat percentage is known, the profile made from it
    gets the Katch-McArdle estimate as its recommended BMR. *)
Theorem accepted_known_form_recommends_katch :
  forall v : Schema.ProfileFormValues,
    Schema.success v = true ->
    Schema.bodyFatMode v = Types.known ->
    exists (lean : float) (r : Out.Results),
      Engine.leanMassKg (Schema.toProfileInput v) = Some lean
      /\ Engine.calculateAll (Schema.toProfileInput v) = JS.Normal r
      /\ Out.recommendedBmr (Out.bmr r) = Engine.round (370 + 21.6 * lean)
      /\ Out.katchMcArdle (Out.methods (Out.bmr r))
         = Engine.roundIfTruthy (Some (370 + 21.6 * lean)).
Proof.
  intros v Hv Hmode.
  destruct (success_inv v Hv) as [_ [_ [Hbf _]]].
  destruct (missingOrNotFinite_false _ (Hbf Hmode)) as [raw [Hraw _]].
  assert (Hk : Types.bodyFatMode (Schema.toProfileInput v) = Types.known).
  { exact Hmode. }
  assert (Hp : exists p : float,
             Types.bodyFatPercent (Schema.toProfileInput v) = Some p).
  { unfold Schema.toProfileInput. simpl. rewrite Hmode, Hraw. simpl.
    eexists. reflexivity. }
  destruct Hp as [p Hp].
  destruct (known_percent_composition _ p Hk Hp) as [fat [lean [Hc _]]].
  assert (Hlean : Engine.leanMassKg (Schema.toProfileInput v) = Some lean).
  { unfold Engine.leanMassKg. rewrite Hc. reflexivity. }
  exists lean, (Spec.resultOf (Schema.toProfileInput v)).
  split; [exact Hlean|]. split; [apply calculateAll_returns|].
  simpl Out.recommendedBmr. simpl Out.katchMcArdle.
  unfold Engine.recommendedBmr, Engine.katchMcArdle.
  rewrite Hk, Hlean. split; reflexivity.
Qed.

Lemma accepted_known_form_recommends_katch_witness :
  exists (lean : float) (r : Out.Results),
    Engine.leanMassKg Samples.known = Some lean
    /\ Engine.calculateAll Samples.known = JS.Normal r
    /\ Out.recommendedBmr (Out.bmr r) = Engine.round (370 + 21.6 * lean).
Proof.
  destruct (accepted_known_form_recommends_katch Samples.knownForm
              eq_refl eq_refl) as [lean [r [Hl [Hr [Hb _]]]]].
  exists lean, r. split; [exact Hl|]. split; [exact Hr | exact Hb].
Defined.

(* ================================================================== *)
(** ** What a field can and cannot change *)

(** The engine reads the composition fields only for the composition. *)
Lemma withComposition_basics (mode : Types.BodyFatMode)
  (percent : option float) (d : Types.DexaInput)
  (input : Types.ProfileInput) :
  Engine.weightKg (Update.withComposition mode percent d input)
  = Engine.weightKg input
  /\ Engine.weightLb (Update.withComposition mode percent d input)
     = Engine.weightLb input
  /\ Engine.mifflin (Update.withComposition mode percent d input)
     = Engine.mifflin input
  /\ Engine.revisedHarrisBenedict
       (Update.withComposition mode percent d input)
     = Engine.revisedHarrisBenedict input
  /\ Engine.activityMultiplier (Update.withComposition mode percent d input)
     = Engine.activityMultiplier input.
Proof. repeat split. Qed.

(** The goals and the warnings are a function of the TDEE, the weight in
    pounds, the deltas and the bulk protein target. *)
Lemma goals_determined (input input' : Types.ProfileInput) :
  Engine.tdee input' = Engine.tdee input ->
  Engine.weightLb input' = Engine.weightLb input ->
  Types.deltas input' = Types.deltas input ->
  Types.bulkProteinGPerLb input' = Types.bulkProteinGPerLb input ->
  (forall g : Spec.Goal, Spec.goalMacros input' g = Spec.goalMacros input g)
  /\ Out.warnings (Spec.resultOf input') = Out.warnings (Spec.resultOf input).
Proof.
  intros Ht Hw Hd Hb.
  assert (Hc : forall g, Spec.calorieBase input' g = Spec.calorieBase input g).
  { intro g. unfold Spec.calorieBase. rewrite Ht, Hd. reflexivity. }
  assert (Hp : forall g,
             Spec.proteinGrams input' g = Spec.proteinGrams input g).
  { intro g. unfold Spec.proteinGrams. rewrite Hw, Hb. reflexivity. }
  split.
  - intro g. unfold Spec.goalMacros. rewrite Hc, Hp. reflexivity.
  - unfold Spec.resultOf, Out.warnings. f_equal.
    apply filter_ext. intro g. unfold Spec.lowFat, Spec.goalFatG.
    rewrite Hc. reflexivity.
Qed.

(** X7. With the body-fat mode [unknown], the percentage and the DEXA
    fields change nothing but the three composition-based method values:
    the recommended BMR, the two population formulas, the TDEE, the four
    goals and the warnings are the same for every percentage and every
    DEXA record. *)
Theorem unknown_mode_ignores_composition :
  forall (input : Types.ProfileInput) (percent : option float)
         (d : Types.DexaInput),
    Types.bodyFatMode input = Types.unknown ->
    exists r r' : Out.Results,
      Engine.calculateAll input = JS.Normal r
      /\ Engine.calculateAll
           (Update.withComposition Types.unknown percent d input)
         = JS.Normal r'
      /\ Out.recommendedBmr (Out.bmr r') = Out.recommendedBmr (Out.bmr r)
      /\ Out.mifflin (Out.methods (Out.bmr r'))
         = Out.mifflin (Out.methods (Out.bmr r))
      /\ Out.revisedHarrisBenedict (Out.methods (Out.bmr r'))
         = Out.revisedHarrisBenedict (Out.methods (Out.bmr r))
      /\ Out.tdee r' = Out.tdee r
      /\ Out.maintenance r' = Out.maintenance r
      /\ Out.cut r' = Out.cut r
      /\ Out.recomp r' = Out.recomp r
      /\ Out.bulk r' = Out.bulk r
      /\ Out.warnings r' = Out.warnings r.
Proof.
  intros input percent d Hmode.
  exists (Spec.resultOf input),
    (Spec.resultOf (Update.withComposition Types.unknown percent d input)).
  split; [apply calculateAll_returns|].
  split; [apply calculateAll_returns|].
  assert (Hrec : Engine.recommendedBmr
                   (Update.withComposition Types.unknown percent d input)
                 = Engine.recommendedBmr input).
  { unfold Engine.recommendedBmr. rewrite Hmode. reflexivity. }
  assert (Htdee : Engine.tdee
                    (Update.withComposition Types.unknown percent d input)
                  = Engine.tdee input).
  { unfold Engine.tdee. rewrite Hrec. reflexivity. }
  destruct (goals_determined input
              (Update.withComposition Types.unknown percent d input)
              Htdee eq_refl eq_refl eq_refl) as [Hg Hw].
  simpl. rewrite Hrec, Htdee, !Hg. repeat split. exact Hw.
Qed.

Lemma unknown_mode_ignores_composition_witness :
  exists r r' : Out.Results,
    Engine.calculateAll Samples.plain = JS.Normal r
    /\ Engine.calculateAll Samples.dexaBoth = JS.Normal r'
    /\ Out.recommendedBmr (Out.bmr r') = Out.recommendedBmr (Out.bmr r)
    /\ Out.tdee r' = Out.tdee r
    /\ Out.warnings r' = Out.warnings r.
Proof.
  destruct (unknown_mode_ignores_composition Samples.plain None
              (Types.dexa Samples.dexaBoth) eq_refl)
    as [r [r' [Hr [Hr' [Hb [_ [_ [Ht [_ [_ [_ [_ Hw]]]]]]]]]]]].
  exists r, r'. repeat split; assumption.
Defined.

(** X8. The deltas and the bulk protein target reach only the goals they
    belong to: whatever they are changed to, the BMR breakdown, the TDEE
    and the maintenance goal stay the same, the cut goal depends on the cut
    delta alone, the recomp goal on the recomp delta alone, and the bulk
    goal on the bulk delta and the bulk protein target alone. *)
Theorem goal_settings_are_local :
  forall (input : Types.ProfileInput) (d : Types.Deltas)
         (bulkProtein : float),
  exists r r' : Out.Results,
    Engine.calculateAll input = JS.Normal r
    /\ Engine.calculateAll (Update.withGoalSettings d bulkProtein input)
       = JS.Normal r'
    /\ Out.bmr r' = Out.bmr r
    /\ Out.tdee r' = Out.tdee r
    /\ Out.maintenance r' = Out.maintenance r
    /\ (Types.cut d = Types.cut (Types.deltas input) ->
        Out.cut r' = Out.cut r)
    /\ (Types.recomp d = Types.recomp (Types.deltas input) ->
        Out.recomp r' = Out.recomp r)
    /\ (Types.bulk d = Types.bulk (Types.deltas input) ->
        bulkProtein = Types.bulkProteinGPerLb input ->
        Out.bulk r' = Out.bulk r).
Proof.
  intros input d bulkProtein.
  exists (Spec.resultOf input),
    (Spec.resultOf (Update.withGoalSettings d bulkProtein input)).
  split; [apply calculateAll_returns|].
  split; [apply calculateAll_returns|].
  split; [reflexivity|]. split; [reflexivity|]. split; [reflexivity|].
  simpl. unfold Spec.goalMacros. simpl.
  change (Engine.tdee (Update.withGoalSettings d bulkProtein input))
    with (Engine.tdee input).
  change (Engine.weightLb (Update.withGoalSettings d bulkProtein input))
    with (Engine.weightLb input).
  split; [intros ->; reflexivity|].
  split; [intros ->; reflexivity|].
  intros -> ->. reflexivity.
Qed.

Lemma goal_settings_are_local_witness :
  exists r r' : Out.Results,
    Engine.calculateAll Samples.plain = JS.Normal r
    /\ Engine.calculateAll Samples.deepCut = JS.Normal r'
    /\ Out.bmr r' = Out.bmr r
    /\ Out.recomp r' = Out.recomp r
    /\ Out.bulk r' = Out.bulk r.
Proof.
  destruct (goal_settings_are_local Samples.plain
              (Types.deltas Samples.deepCut) 1.0)
    as [r [r' [Hr [Hr' [Hb [_ [_ [_ [Hrec Hbulk]]]]]]]]].
  exists r, r'. split; [exact Hr|]. split; [exact Hr'|].
  split; [exact Hb|].
  split; [apply Hrec | apply Hbulk]; reflexivity.
Defined.

(* ================================================================== *)
(** ** A missing activity multiplier *)

Lemma computeMacros_nan (proteinG fatFraction : float) :
  Spec.computeMacros nan proteinG fatFraction
  = {| Out.calories := nan;
       Out.proteinG := Engine.round proteinG;
       Out.fatG := nan;
       Out.carbsG := nan |}.
Proof.
  unfold Spec.computeMacros.
  rewrite mul_nan_l, div_nan_l, sub_nan_l, sub_nan_l, div_nan_l, round_nan.
  reflexivity.
Qed.

(** X9. When the activity source selected by [useCustom] is absent, the
    TDEE is [NaN], and so are the calories, the fat and the carbohydrates
    of all four goals; no fat warning is raised at all, since [NaN < 50] is
    false; and the protein grams do not depend on the multiplier: they are
    [round (weightLb * 1.0)] for maintenance, cut and recomp and
    [round (weightLb * bulkProteinGPerLb)] for bulk, figures when the weight
    is present and [NaN] themselves when it is missing too. *)
Theorem missing_activity_silences_warnings :
  forall input : Types.ProfileInput,
    Spec.selectedActivity input = None ->
    exists r : Out.Results,
      Engine.calculateAll input = JS.Normal r
      /\ Out.tdee r = nan
      /\ Out.warnings r = []
      /\ Forall (fun m : Out.MacroTargets =>
                   Out.calories m = nan /\ Out.fatG m = nan
                   /\ Out.carbsG m = nan)
           [Out.maintenance r; Out.cut r; Out.recomp r; Out.bulk r]
      /\ Out.proteinG (Out.maintenance r)
         = JS.Math_round (Engine.weightKg input / 0.45359237 * 1.0)
      /\ Out.proteinG (Out.cut r)
         = JS.Math_round (Engine.weightKg input / 0.45359237 * 1.0)
      /\ Out.proteinG (Out.recomp r)
         = JS.Math_round (Engine.weightKg input / 0.45359237 * 1.0)
      /\ Out.proteinG (Out.bulk r)
         = JS.Math_round (Engine.weightKg input / 0.45359237
                          * Types.bulkProteinGPerLb input)
      /\ (Spec.activeWeight input = None ->
          Forall (fun m : Out.MacroTargets => Out.proteinG m = nan)
            [Out.maintenance r; Out.cut r; Out.recomp r; Out.bulk r]).
Proof.
  intros input H. apply activityMultiplier_missing in H.
  assert (Ht : Engine.tdee input = nan).
  { unfold Engine.tdee. rewrite H. apply mul_nan_r. }
  assert (Hc : forall g : Spec.Goal, Spec.calorieBase input g = nan).
  { intros [| | |]; unfold Spec.calorieBase; rewrite Ht;
      try reflexivity; apply add_nan_l. }
  exists (Spec.resultOf input). split; [apply calculateAll_returns|].
  split; [simpl; rewrite Ht; reflexivity|].
  split.
  { assert (Hl : forall g : Spec.Goal, Spec.lowFat input g = false).
    { intro g. unfold Spec.lowFat, Spec.goalFatG.
      rewrite Hc, mul_nan_l, div_nan_l. reflexivity. }
    unfold Spec.resultOf, Out.warnings, Spec.goalOrder. cbn [filter].
    rewrite !Hl. reflexivity. }
  split.
  { unfold Spec.resultOf, Spec.goalMacros.
    cbn [Out.maintenance Out.cut Out.recomp Out.bulk].
    rewrite !Hc, !computeMacros_nan.
    repeat constructor. }
  split; [reflexivity|]. split; [reflexivity|]. split; [reflexivity|].
  split; [reflexivity|].
  intro Hw. apply weightKg_missing in Hw.
  unfold Spec.resultOf, Spec.goalMacros.
  cbn [Out.maintenance Out.cut Out.recomp Out.bulk].
  rewrite !Hc, !computeMacros_nan. cbn [Out.proteinG].
  unfold Spec.proteinGrams, Engine.weightLb. rewrite Hw.
  rewrite div_nan_l, !mul_nan_l, round_nan.
  repeat constructor.
Qed.

(** The first example without an activity source: TDEE [NaN], no warning,
    and 180 g of protein in each of the four goals. *)
Lemma missing_activity_silences_warnings_witness :
  exists r : Out.Results,
    Engine.calculateAll Update.noActivity = JS.Normal r
    /\ Out.tdee r = nan
    /\ Out.warnings r = []
    /\ map Out.proteinG
         [Out.maintenance r; Out.cut r; Out.recomp r; Out.bulk r]
       = [180; 180; 180; 180].
Proof.
  destruct (missing_activity_silences_warnings Update.noActivity eq_refl)
    as [r [Hr [Ht [Hw [_ [Hm [Hc [Hre [Hb _]]]]]]]]].
  exists r. split; [exact Hr|]. split; [exact Ht|]. split; [exact Hw|].
  cbn [map]. rewrite Hm, Hc, Hre, Hb. vm_compute. reflexivity.
Defined.

(* ================================================================== *)
(** ** Which methods reach the output *)

(** X10. In the result, Mifflin-St Jeor and Revised Harris-Benedict are
    always present, and each composition-based method is present exactly
    when its masses are resolved and its value is neither zero nor [NaN]:
    Katch-McArdle needs the lean mass, Nelson and Muller both masses. *)
Theorem method_presence_in_output :
  forall input : Types.ProfileInput,
  exists r : Out.Results,
    Engine.calculateAll input = JS.Normal r
    /\ Out.mifflin (Out.methods (Out.bmr r)) <> None
    /\ Out.revisedHarrisBenedict (Out.methods (Out.bmr r)) <> None
    /\ (Out.katchMcArdle (Out.methods (Out.bmr r)) <> None
        <-> exists lean : float,
              Engine.leanMassKg input = Some lean
              /\ JS.truthyNum (370 + 21.6 * lean) = true)
    /\ (Out.nelson (Out.methods (Out.bmr r)) <> None
        <-> exists fat lean : float,
              Engine.fatMassKg input = Some fat
              /\ Engine.leanMassKg input = Some lean
              /\ JS.truthyNum (25.8 * lean + 4.04 * fat) = true)
    /\ (Out.muller (Out.methods (Out.bmr r)) <> None
        <-> exists fat lean : float,
              Engine.fatMassKg input = Some fat
              /\ Engine.leanMassKg input = Some lean
              /\ JS.truthyNum (13.587 * lean + 9.613 * fat + 198) = true).
Proof.
  intro input. exists (Spec.resultOf input).
  split; [apply calculateAll_returns|].
  split; [discriminate|]. split; [discriminate|].
  simpl. rewrite !roundIfTruthy_present.
  unfold Engine.katchMcArdle, Engine.nelson, Engine.muller.
  destruct (Engine.fatMassKg input) as [fat|],
    (Engine.leanMassKg input) as [lean|];
    repeat split;
    try (intros [v [Hv Ht]]; try discriminate Hv;
         injection Hv as Hv; subst v);
    try (intros [f [l [Hf [Hl Ht]]]]; try discriminate Hf;
         try discriminate Hl;
         injection Hf as Hf; injection Hl as Hl; subst f l);
    try (intros [l [Hl Ht]]; try discriminate Hl;
         injection Hl as Hl; subst l);
    try (eexists; split; [reflexivity | exact Ht]);
    try (eexists; eexists; split; [reflexivity|];
         split; [reflexivity | exact Ht]).
Qed.

(* ================================================================== *)
(** ** A DEXA scan with one mass *)

(** The result is a function of the three composition-based estimates, as
    far as the composition fields go. *)
Lemma resultOf_withDexa (d : Types.DexaInput) (input : Types.ProfileInput) :
  Engine.katchMcArdle (Update.withDexa d input) = Engine.katchMcArdle input ->
  Engine.nelson (Update.withDexa d input) = Engine.nelson input ->
  Engine.muller (Update.withDexa d input) = Engine.muller input ->
  Spec.resultOf (Update.withDexa d input) = Spec.resultOf input.
Proof.
  intros Hk Hn Hm.
  assert (Hrec : Engine.recommendedBmr (Update.withDexa d input)
                 = Engine.recommendedBmr input).
  { unfold Engine.recommendedBmr. rewrite Hk. reflexivity. }
  assert (Htdee : Engine.tdee (Update.withDexa d input) = Engine.tdee input).
  { unfold Engine.tdee. rewrite Hrec. reflexivity. }
  destruct (goals_determined input (Update.withDexa d input)
              Htdee eq_refl eq_refl eq_refl) as [Hg Hw].
  unfold Spec.resultOf in *. cbn [Out.warnings] in Hw.
  rewrite Hrec, Htdee, Hk, Hn, Hm, !Hg, Hw. reflexivity.
Qed.

(** X11. A DEXA scan that gives the fat mass alone has no effect at all:
    the result is the one obtained with DEXA disabled.  A scan that gives
    the lean mass alone has no effect either when the body-fat mode is
    [known] and a percentage is present, the percentage taking over. *)
Theorem lone_dexa_mass_is_ignored :
  forall input : Types.ProfileInput,
    (Types.leanMassKg (Types.dexa input) = None ->
     Engine.calculateAll input
     = Engine.calculateAll (Update.withDexa Update.noDexa input))
    /\ (forall percent : float,
          Types.fatMassKg (Types.dexa input) = None ->
          Types.bodyFatMode input = Types.known ->
          Types.bodyFatPercent input = Some percent ->
          Engine.calculateAll input
          = Engine.calculateAll (Update.withDexa Update.noDexa input)).
Proof.
  intro input. split.
  - intro Hl. rewrite !calculateAll_returns. f_equal. symmetry.
    apply resultOf_withDexa;
      unfold Engine.katchMcArdle, Engine.nelson, Engine.muller,
        Engine.fatMassKg, Engine.leanMassKg, Engine.composition,
        Engine.dexaMasses; simpl; rewrite Hl;
      destruct (Types.enabled (Types.dexa input));
      destruct (Types.fatMassKg (Types.dexa input));
      simpl; rewrite ?orb_true_r; simpl;
      destruct (Types.isKnown (Types.bodyFatMode input)
                && JS.notNull (Types.bodyFatPercent input));
      reflexivity.
  - intros percent Hf Hmode Hbf. rewrite !calculateAll_returns. f_equal.
    symmetry.
    apply resultOf_withDexa;
      unfold Engine.katchMcArdle, Engine.nelson, Engine.muller,
        Engine.fatMassKg, Engine.leanMassKg, Engine.composition,
        Engine.dexaMasses; simpl; rewrite Hf, Hmode, Hbf;
      destruct (Types.enabled (Types.dexa input)); reflexivity.
Qed.

Lemma lone_dexa_mass_is_ignored_witness :
  Engine.calculateAll
    (Update.withDexa {| Types.enabled := true;
                        Types.fatMassKg := Some 16;
                        Types.leanMassKg := None |} Samples.plain)
  = Engine.calculateAll (Update.withDexa Update.noDexa Samples.plain).
Proof.
  exact (proj1 (lone_dexa_mass_is_ignored
                  (Update.withDexa {| Types.enabled := true;
                                      Types.fatMassKg := Some 16;
                                      Types.leanMassKg := None |}
                     Samples.plain)) eq_refl).
Defined.

(* ================================================================== *)
(** ** What the results panel shows *)

Lemma is_nan_true (x : float) : is_nan x = true -> Prim2SF x = S754_nan.
Proof.
  intro H. destruct (Prim2SF x) eqn:Hx; try reflexivity;
    assert (Hf : is_nan x = false)
      by (apply is_nan_false; rewrite Hx; discriminate);
    rewrite Hf in H; discriminate H.
Qed.

Lemma ltb_nan_r (x y : float) : is_nan y = true -> (x <? y) = false.
Proof.
  intro H. apply is_nan_true in H.
  rewrite FloatAxioms.ltb_spec, H. unfold SFltb.
  destruct (Prim2SF x); reflexivity.
Qed.

(** X12. Whatever the locale, a value that is absent or not finite is
    shown as an em dash and never reaches [toLocaleString], and a present
    optional value is formatted as a plain one; so on the engine's results
    the Mifflin-St Jeor row reads ["— kcal"] when the active weight or
    height is missing, the TDEE reads ["—"] when the activity multiplier is
    missing, and the three composition rows read ["— kcal"] when no lean
    mass is resolved. *)
Theorem panel_shows_dash_for_missing_figures :
  forall (toLocaleString : float -> string) (input : Types.ProfileInput),
    (forall n : float,
        Format.fmtMaybeInt toLocaleString (Some n)
        = Format.fmtInt toLocaleString n)
    /\ (forall n : float,
          JS.isFinite n = false -> Format.fmtInt toLocaleString n = "—")
    /\ Format.fmtMaybeInt toLocaleString None = "—"
    /\ exists r : Out.Results,
         Engine.calculateAll input = JS.Normal r
         /\ (Spec.activeWeight input = None
             \/ Spec.activeHeight input = None ->
             ResultsPanel.methodValue toLocaleString
               (Out.mifflin (Out.methods (Out.bmr r))) = "— kcal")
         /\ (Spec.selectedActivity input = None ->
             Format.fmtInt toLocaleString (Out.tdee r) = "—")
         /\ (Engine.leanMassKg input = None ->
             ResultsPanel.methodValue toLocaleString
               (Out.katchMcArdle (Out.methods (Out.bmr r))) = "— kcal"
             /\ ResultsPanel.methodValue toLocaleString
                  (Out.nelson (Out.methods (Out.bmr r))) = "— kcal"
             /\ ResultsPanel.methodValue toLocaleString
                  (Out.muller (Out.methods (Out.bmr r))) = "— kcal").
Proof.
  intros toLocaleString input.
  split; [reflexivity|].
  split; [intros n Hn; unfold Format.fmtInt; rewrite Hn; reflexivity|].
  split; [reflexivity|].
  exists (Spec.resultOf input). split; [apply calculateAll_returns|].
  split; [|split].
  - intro H.
    assert (Hm : Engine.mifflin input = nan).
    { unfold Engine.mifflin. destruct H as [H | H].
      - rewrite (weightKg_missing input H).
        rewrite mul_nan_r, add_nan_l, sub_nan_l, add_nan_l. reflexivity.
      - rewrite (heightCm_missing input H).
        rewrite mul_nan_r, add_nan_r, sub_nan_l, add_nan_l. reflexivity. }
    simpl. rewrite Hm. reflexivity.
  - intro H. apply activityMultiplier_missing in H. simpl.
    unfold Engine.tdee. rewrite H, mul_nan_r. reflexivity.
  - intro H. simpl.
    unfold Engine.katchMcArdle, Engine.nelson, Engine.muller. rewrite H.
    destruct (Engine.fatMassKg input); repeat split.
Qed.

Lemma panel_shows_dash_for_missing_figures_witness :
  exists r : Out.Results,
    Engine.calculateAll Samples.noWeight = JS.Normal r
    /\ ResultsPanel.methodValue (fun _ => "1,783")
         (Out.mifflin (Out.methods (Out.bmr r))) = "— kcal".
Proof.
  destruct (panel_shows_dash_for_missing_figures (fun _ => "1,783")
              Samples.noWeight) as [_ [_ [_ [r [Hr [Hm _]]]]]].
  exists r. split; [exact Hr|]. apply Hm. left. reflexivity.
Defined.

(** X13. A macro card whose calories are 0, negative or [NaN] shows 0 %
    for protein, fat and carbohydrates, whatever the grams are: the
    percentages are never the outcome of a division by such a total. *)
Theorem card_percents_zero_without_positive_calories :
  forall data : Out.MacroTargets,
    (Out.calories data <=? 0) = true \/ is_nan (Out.calories data) = true ->
    ResultsPanel.cardPercents data = (0, 0, 0).
Proof.
  intros data H.
  assert (Hc : (0 <? Out.calories data) = false).
  { destruct H as [H | H];
      [apply leb_true_ltb_false, H | apply ltb_nan_r, H]. }
  unfold ResultsPanel.cardPercents, ResultsPanel.pct. rewrite Hc.
  reflexivity.
Qed.

Lemma card_percents_zero_without_positive_calories_witness :
  ResultsPanel.cardPercents
    (Spec.goalMacros Update.noActivity Spec.Maintenance) = (0, 0, 0).
Proof.
  apply card_percents_zero_without_positive_calories.
  right. reflexivity.
Defined.

Lemma shows_iff_existsb {A B : Type} (f : A -> B) (p : A -> bool)
  (l : list A) :
  (0 <? length (map f (filter p l)))%nat = existsb p l.
Proof.
  induction l as [|a l IH]; simpl; [reflexivity|].
  destruct (p a); simpl; [reflexivity | exact IH].
Qed.

(** X14. On the engine's results the panel renders its warnings box
    exactly when at least one of the four goals has fat grams, before
    rounding, below 50. *)
Theorem warnings_box_iff_low_fat_goal :
  forall input : Types.ProfileInput,
  exists r : Out.Results,
    Engine.calculateAll input = JS.Normal r
    /\ ResultsPanel.showsWarnings r
       = existsb (fun g => Spec.goalFatG input g <? 50)
           [Spec.Maintenance; Spec.Cut; Spec.Recomp; Spec.Bulk].
Proof.
  intro input. exists (Spec.resultOf input).
  split; [apply calculateAll_returns|].
  unfold ResultsPanel.showsWarnings, Spec.resultOf, Out.warnings.
  apply (shows_iff_existsb (fun _ => Spec.fatWarning) (Spec.lowFat input)
           Spec.goalOrder).
Qed.
